(** * Misago: thread moderation actions and generic admin views

    A shallow embedding of

    - [misago/threads/moderation/threads.py]: the moderation actions
      ([announce_thread], [pin_thread], ..., [delete_thread]);
    - [misago/admin/views/generic.py]: [ListView] (ordering, pagination,
      dispatch) and [TargetedView] (target lookup, dispatch).

    Python objects mutated in place are passed and returned explicitly.
    Writes to the database are kept as an ordered log of effects, grouped
    by transaction. *)

From Stdlib Require Import ZArith List String Ascii Bool Lia.
From stdpp Require Import gmap strings.
Import ListNotations.

Local Open Scope string_scope.
Local Open Scope list_scope.
Local Open Scope Z_scope.

(* ===================================================================== *)
(** ** Thread moderation *)
(* ===================================================================== *)

Module Moderation.

(** *** Data model *)

Record User := {
  user_pk : Z;
  username : string;
  user_slug : string;
}.

Record Category := {
  category_pk : Z;
  category_name : string;
}.

(** The columns of a post the moderation actions read or write. *)
Record Post := {
  post_pk : Z;
  post_is_hidden : bool;
  post_is_moderated : bool;
  hidden_by : option User;
  hidden_by_name : option string;
  hidden_by_slug : option string;
  hidden_on : option Z;
}.

(** A thread instance; [first_post] is the related post object cached on
    the instance, [category] the related category object. *)
Record Thread := {
  pk : Z;
  title : string;
  weight : Z;
  category : Category;
  is_closed : bool;
  is_hidden : bool;
  is_moderated : bool;
  has_events : bool;
  first_post : Post;
}.

(** [thread.category_id] is the key of the related category. *)
Definition category_id (thread : Thread) : Z := category_pk (category thread).

(** Attribute assignments [obj.field = value]. *)

Definition set_weight (t : Thread) (v : Z) : Thread :=
  {| pk := pk t; title := title t; weight := v; category := category t;
     is_closed := is_closed t; is_hidden := is_hidden t;
     is_moderated := is_moderated t; has_events := has_events t;
     first_post := first_post t |}.

Definition set_category (t : Thread) (v : Category) : Thread :=
  {| pk := pk t; title := title t; weight := weight t; category := v;
     is_closed := is_closed t; is_hidden := is_hidden t;
     is_moderated := is_moderated t; has_events := has_events t;
     first_post := first_post t |}.

Definition set_is_closed (t : Thread) (v : bool) : Thread :=
  {| pk := pk t; title := title t; weight := weight t; category := category t;
     is_closed := v; is_hidden := is_hidden t;
     is_moderated := is_moderated t; has_events := has_events t;
     first_post := first_post t |}.

Definition set_is_hidden (t : Thread) (v : bool) : Thread :=
  {| pk := pk t; title := title t; weight := weight t; category := category t;
     is_closed := is_closed t; is_hidden := v;
     is_moderated := is_moderated t; has_events := has_events t;
     first_post := first_post t |}.

Definition set_has_events (t : Thread) (v : bool) : Thread :=
  {| pk := pk t; title := title t; weight := weight t; category := category t;
     is_closed := is_closed t; is_hidden := is_hidden t;
     is_moderated := is_moderated t; has_events := v;
     first_post := first_post t |}.

Definition set_first_post (t : Thread) (v : Post) : Thread :=
  {| pk := pk t; title := title t; weight := weight t; category := category t;
     is_closed := is_closed t; is_hidden := is_hidden t;
     is_moderated := is_moderated t; has_events := has_events t;
     first_post := v |}.

Definition set_post_is_hidden (p : Post) (v : bool) : Post :=
  {| post_pk := post_pk p; post_is_hidden := v;
     post_is_moderated := post_is_moderated p; hidden_by := hidden_by p;
     hidden_by_name := hidden_by_name p; hidden_by_slug := hidden_by_slug p;
     hidden_on := hidden_on p |}.

Definition set_post_is_moderated (p : Post) (v : bool) : Post :=
  {| post_pk := post_pk p; post_is_hidden := post_is_hidden p;
     post_is_moderated := v; hidden_by := hidden_by p;
     hidden_by_name := hidden_by_name p; hidden_by_slug := hidden_by_slug p;
     hidden_on := hidden_on p |}.

Definition set_hidden_by (p : Post) (v : option User) : Post :=
  {| post_pk := post_pk p; post_is_hidden := post_is_hidden p;
     post_is_moderated := post_is_moderated p; hidden_by := v;
     hidden_by_name := hidden_by_name p; hidden_by_slug := hidden_by_slug p;
     hidden_on := hidden_on p |}.

Definition set_hidden_by_name (p : Post) (v : option string) : Post :=
  {| post_pk := post_pk p; post_is_hidden := post_is_hidden p;
     post_is_moderated := post_is_moderated p; hidden_by := hidden_by p;
     hidden_by_name := v; hidden_by_slug := hidden_by_slug p;
     hidden_on := hidden_on p |}.

Definition set_hidden_by_slug (p : Post) (v : option string) : Post :=
  {| post_pk := post_pk p; post_is_hidden := post_is_hidden p;
     post_is_moderated := post_is_moderated p; hidden_by := hidden_by p;
     hidden_by_name := hidden_by_name p; hidden_by_slug := v;
     hidden_on := hidden_on p |}.

Definition set_hidden_on (p : Post) (v : option Z) : Post :=
  {| post_pk := post_pk p; post_is_hidden := post_is_hidden p;
     post_is_moderated := post_is_moderated p; hidden_by := hidden_by p;
     hidden_by_name := hidden_by_name p; hidden_by_slug := hidden_by_slug p;
     hidden_on := v |}.

(** *** Audit events and database effects *)

(** A value interpolated into an event message. *)
Inductive Link :=
| LinkUser (u : User)
| LinkCategory (c : Category)
| LinkText (s : string).

Record Event := {
  event_thread : Z;
  event_author : User;
  event_icon : string;
  event_message : string;
  event_links : list (string * Link);
}.

(** One entry per write the actions issue, in program order.  A save keeps
    the instance as it was when saved and the [update_fields] argument
    ([None] for a save of every column). *)
Inductive Effect :=
| EventRecorded (e : Event)
| PostSaved (p : Post) (update_fields : option (list string))
| ThreadSaved (t : Thread) (update_fields : option (list string))
| ThreadMoved (thread_pk : Z) (new_category : Z)
| ThreadMerged (thread_pk : Z) (other_pk : Z)
| ThreadSynchronized (thread_pk : Z)
| ThreadDeleted (thread_pk : Z).

(** What lies outside the moderation module: the clock read by
    [timezone.now()] and the two model methods whose result on the
    instance the module does not determine. *)
Record Env := {
  now : Z;
  synchronize : Thread -> Thread;
  merge : Thread -> Thread -> Thread;
}.

(** The database as the actions see it: the transactions committed so
    far, oldest first, each the list of its effects. *)
Record World := {
  env : Env;
  committed : list (list Effect);
}.

(** A running transaction. *)
Record Txn := {
  txn_env : Env;
  pending : list Effect;
}.

Definition log (e : Effect) (tx : Txn) : Txn :=
  {| txn_env := txn_env tx; pending := pending tx ++ [e] |}.

Definition commit (w : World) (tx : list Effect) : World :=
  {| env := env w; committed := committed w ++ [tx] |}.

(** [@atomic]: the body runs in one transaction, committed when the body
    returns.  A transaction without writes leaves the database as it was. *)
Definition atomic {A : Type} (body : Txn -> A * Txn) (w : World) : A * World :=
  let '(a, tx) := body {| txn_env := env w; pending := [] |} in
  match pending tx with
  | [] => (a, w)
  | _ :: _ => (a, commit w (pending tx))
  end.

(** Every effect committed so far, in order. *)
Definition effects (w : World) : list Effect := concat (committed w).

(** The audit events among a list of effects, in order. *)
Fixpoint events_of (l : list Effect) : list Event :=
  match l with
  | [] => []
  | EventRecorded ev :: l' => ev :: events_of l'
  | _ :: l' => events_of l'
  end.

(** The [update_fields] of the saves of a thread instance. *)
Fixpoint thread_saves (l : list Effect) : list (option (list string)) :=
  match l with
  | [] => []
  | ThreadSaved _ uf :: l' => uf :: thread_saves l'
  | _ :: l' => thread_saves l'
  end.

(** The [update_fields] of the saves of posts. *)
Fixpoint post_saves (l : list Effect) : list (option (list string)) :=
  match l with
  | [] => []
  | PostSaved _ uf :: l' => uf :: post_saves l'
  | _ :: l' => post_saves l'
  end.

(** *** Collaborators of the moderation module *)

(** [ugettext]: the message catalogue of the source language. *)
Definition ugettext (message : string) : string := message.

(** Modelled from the spec: [misago.threads.events.record_event] is not
    part of the sources.  It persists one audit trail entry for the thread,
    with the given icon, message template and interpolation arguments, and
    raises the thread's derived flag [has_events]. *)
Definition record_event (user : User) (thread : Thread) (icon message : string)
    (links : list (string * Link)) (tx : Txn) : Thread * Txn :=
  (set_has_events thread true,
   log (EventRecorded {| event_thread := pk thread; event_author := user;
                         event_icon := icon; event_message := message;
                         event_links := links |}) tx).

(** [Model.save(update_fields=...)]. *)
Definition thread_save (thread : Thread) (update_fields : option (list string))
    (tx : Txn) : Txn :=
  log (ThreadSaved thread update_fields) tx.

Definition post_save (post : Post) (update_fields : option (list string))
    (tx : Txn) : Txn :=
  log (PostSaved post update_fields) tx.

(** Modelled from the spec: [Thread.move] is not part of the sources.  It
    places the thread in the new category ([category] is the column the
    caller then saves). *)
Definition thread_move (thread : Thread) (new_category : Category) (tx : Txn)
  : Thread * Txn :=
  (set_category thread new_category,
   log (ThreadMoved (pk thread) (category_pk new_category)) tx).

(** [Thread.merge], [Thread.synchronize] and [Thread.delete] are not part
    of the sources: the call is logged, the instance becomes what the
    environment says. *)
Definition thread_merge (thread other_thread : Thread) (tx : Txn)
  : Thread * Txn :=
  (merge (txn_env tx) thread other_thread,
   log (ThreadMerged (pk thread) (pk other_thread)) tx).

Definition thread_synchronize (thread : Thread) (tx : Txn) : Thread * Txn :=
  (synchronize (txn_env tx) thread, log (ThreadSynchronized (pk thread)) tx).

Definition thread_delete (thread : Thread) (tx : Txn) : Txn :=
  log (ThreadDeleted (pk thread)) tx.

(** *** The moderation actions *)

Definition announce_thread (user : User) (thread : Thread)
  : World -> bool * Thread * World :=
  atomic (fun tx =>
    if negb (weight thread =? 2) then
      let message := ugettext "%(user)s turned thread into an announcement." in
      let '(thread, tx) :=
        record_event user thread "star" message [("user", LinkUser user)] tx in
      let thread := set_weight thread 2 in
      let tx := thread_save thread (Some ["has_events"; "weight"]) tx in
      (true, thread, tx)
    else
      (false, thread, tx)).

Definition pin_thread (user : User) (thread : Thread)
  : World -> bool * Thread * World :=
  atomic (fun tx =>
    if negb (weight thread =? 1) then
      let message := ugettext "%(user)s pinned thread." in
      let '(thread, tx) :=
        record_event user thread "bookmark" message [("user", LinkUser user)] tx in
      let thread := set_weight thread 1 in
      let tx := thread_save thread (Some ["has_events"; "weight"]) tx in
      (true, thread, tx)
    else
      (false, thread, tx)).

Definition remove_thread_weight (user : User) (thread : Thread)
  : World -> bool * Thread * World :=
  atomic (fun tx =>
    if negb (weight thread =? 0) then
      let message := ugettext "%(user)s removed thread weight." in
      let '(thread, tx) :=
        record_event user thread "circle" message [("user", LinkUser user)] tx in
      let thread := set_weight thread 0 in
      let tx := thread_save thread (Some ["has_events"; "weight"]) tx in
      (true, thread, tx)
    else
      (false, thread, tx)).

Definition move_thread (user : User) (thread : Thread) (new_category : Category)
  : World -> bool * Thread * World :=
  atomic (fun tx =>
    if negb (category_id thread =? category_pk new_category) then
      let message := ugettext "%(user)s moved thread from %(category)s." in
      let '(thread, tx) :=
        record_event user thread "arrow-right" message
          [("user", LinkUser user); ("category", LinkCategory (category thread))]
          tx in
      let '(thread, tx) := thread_move thread new_category tx in
      let tx := thread_save thread (Some ["has_events"; "category"]) tx in
      (true, thread, tx)
    else
      (false, thread, tx)).

Definition merge_thread (user : User) (thread other_thread : Thread)
  : World -> bool * Thread * World :=
  atomic (fun tx =>
    let message := ugettext "%(user)s merged in %(thread)s." in
    let '(thread, tx) :=
      record_event user thread "arrow-right" message
        [("user", LinkUser user); ("thread", LinkText (title other_thread))]
        tx in
    let '(thread, tx) := thread_merge thread other_thread tx in
    let tx := thread_delete other_thread tx in
    (true, thread, tx)).

Definition approve_thread (user : User) (thread : Thread)
  : World -> bool * Thread * World :=
  atomic (fun tx =>
    if is_moderated thread then
      let message := ugettext "%(user)s approved thread." in
      let '(thread, tx) :=
        record_event user thread "check" message [("user", LinkUser user)] tx in
      let thread := set_is_closed thread false in
      let thread :=
        set_first_post thread (set_post_is_moderated (first_post thread) false) in
      let tx := post_save (first_post thread) (Some ["is_moderated"]) tx in
      let '(thread, tx) := thread_synchronize thread tx in
      let tx := thread_save thread (Some ["has_events"; "is_moderated"]) tx in
      (true, thread, tx)
    else
      (false, thread, tx)).

Definition open_thread (user : User) (thread : Thread)
  : World -> bool * Thread * World :=
  atomic (fun tx =>
    if is_closed thread then
      let message := ugettext "%(user)s opened thread." in
      let '(thread, tx) :=
        record_event user thread "unlock-alt" message [("user", LinkUser user)] tx in
      let thread := set_is_closed thread false in
      let tx := thread_save thread (Some ["has_events"; "is_closed"]) tx in
      (true, thread, tx)
    else
      (false, thread, tx)).

Definition close_thread (user : User) (thread : Thread)
  : World -> bool * Thread * World :=
  atomic (fun tx =>
    if negb (is_closed thread) then
      let message := ugettext "%(user)s closed thread." in
      let '(thread, tx) :=
        record_event user thread "lock" message [("user", LinkUser user)] tx in
      let thread := set_is_closed thread true in
      let tx := thread_save thread (Some ["has_events"; "is_closed"]) tx in
      (true, thread, tx)
    else
      (false, thread, tx)).

Definition unhide_thread (user : User) (thread : Thread)
  : World -> bool * Thread * World :=
  atomic (fun tx =>
    if is_hidden thread then
      let message := ugettext "%(user)s made thread visible." in
      let '(thread, tx) :=
        record_event user thread "eye" message [("user", LinkUser user)] tx in
      let thread :=
        set_first_post thread (set_post_is_hidden (first_post thread) false) in
      let tx := post_save (first_post thread) (Some ["is_hidden"]) tx in
      let thread := set_is_hidden thread false in
      let tx := thread_save thread (Some ["has_events"; "is_hidden"]) tx in
      let '(thread, tx) := thread_synchronize thread tx in
      let tx := thread_save thread None tx in
      (true, thread, tx)
    else
      (false, thread, tx)).

Definition hide_thread (user : User) (thread : Thread)
  : World -> bool * Thread * World :=
  atomic (fun tx =>
    if negb (is_hidden thread) then
      let message := ugettext "%(user)s hidden thread." in
      let '(thread, tx) :=
        record_event user thread "eye-slash" message [("user", LinkUser user)] tx in
      let thread :=
        set_first_post thread (set_post_is_hidden (first_post thread) true) in
      let thread :=
        set_first_post thread (set_hidden_by (first_post thread) (Some user)) in
      let thread :=
        set_first_post thread
          (set_hidden_by_name (first_post thread) (Some (username user))) in
      let thread :=
        set_first_post thread
          (set_hidden_by_slug (first_post thread) (Some (user_slug user))) in
      let thread :=
        set_first_post thread
          (set_hidden_on (first_post thread) (Some (now (txn_env tx)))) in
      let tx :=
        post_save (first_post thread)
          (Some ["is_hidden"; "hidden_by"; "hidden_by_name"; "hidden_by_slug";
                 "hidden_on"]) tx in
      let thread := set_is_hidden thread true in
      let tx := thread_save thread (Some ["has_events"; "is_hidden"]) tx in
      (true, thread, tx)
    else
      (false, thread, tx)).

Definition delete_thread (user : User) (thread : Thread)
  : World -> bool * Thread * World :=
  atomic (fun tx =>
    let tx := thread_delete thread tx in
    (true, thread, tx)).

(** *** The action set as a whole *)

Inductive Action :=
| Announce
| Pin
| RemoveWeight
| Move (new_category : Category)
| Merge (other_thread : Thread)
| Approve
| Open
| Close
| Unhide
| Hide
| Delete.

Definition run (a : Action) (user : User) (thread : Thread)
  : World -> bool * Thread * World :=
  match a with
  | Announce => announce_thread user thread
  | Pin => pin_thread user thread
  | RemoveWeight => remove_thread_weight user thread
  | Move new_category => move_thread user thread new_category
  | Merge other_thread => merge_thread user thread other_thread
  | Approve => approve_thread user thread
  | Open => open_thread user thread
  | Close => close_thread user thread
  | Unhide => unhide_thread user thread
  | Hide => hide_thread user thread
  | Delete => delete_thread user thread
  end.

(** The actions whose body is under a test of the thread's state. *)
Definition guarded (a : Action) : bool :=
  match a with
  | Merge _ | Delete => false
  | _ => true
  end.

Definition is_merged (thread_pk other_pk : Z) (e : Effect) : bool :=
  match e with
  | ThreadMerged p q => (p =? thread_pk) && (q =? other_pk)
  | _ => false
  end.

Definition is_deleted (thread_pk : Z) (e : Effect) : bool :=
  match e with
  | ThreadDeleted p => p =? thread_pk
  | _ => false
  end.

(** The target state of each action, in the words of the specification:
    the state in which the action is already satisfied.  For the two
    actions without a test it is read off the database: the other thread
    has been merged in, the thread has been deleted. *)
Definition in_target_state (a : Action) (thread : Thread) (w : World) : bool :=
  match a with
  | Announce => weight thread =? 2
  | Pin => weight thread =? 1
  | RemoveWeight => weight thread =? 0
  | Move new_category => category_id thread =? category_pk new_category
  | Merge other_thread =>
      existsb (is_merged (pk thread) (pk other_thread)) (effects w)
  | Approve => negb (is_moderated thread)
  | Open => negb (is_closed thread)
  | Close => is_closed thread
  | Unhide => negb (is_hidden thread)
  | Hide => is_hidden thread
  | Delete => existsb (is_deleted (pk thread)) (effects w)
  end.

(** The number of audit events each action records when it runs its body. *)
Definition events_issued (a : Action) : nat :=
  match a with
  | Delete => 0%nat
  | _ => 1%nat
  end.

(** The thread saves each action issues when it runs its body. *)
Definition saves_issued (a : Action) : list (option (list string)) :=
  match a with
  | Announce | Pin | RemoveWeight => [Some ["has_events"; "weight"]]
  | Move _ => [Some ["has_events"; "category"]]
  | Merge _ => []
  | Approve => [Some ["has_events"; "is_moderated"]]
  | Open | Close => [Some ["has_events"; "is_closed"]]
  | Unhide => [Some ["has_events"; "is_hidden"]; None]
  | Hide => [Some ["has_events"; "is_hidden"]]
  | Delete => []
  end.

(** *** Sample data *)

Definition alice : User :=
  {| user_pk := 1; username := "alice"; user_slug := "alice" |}.

Definition lounge : Category := {| category_pk := 3; category_name := "Lounge" |}.

Definition plain_post : Post :=
  {| post_pk := 70; post_is_hidden := false; post_is_moderated := false;
     hidden_by := None; hidden_by_name := None; hidden_by_slug := None;
     hidden_on := None |}.

Definition plain_thread : Thread :=
  {| pk := 7; title := "Hello"; weight := 0; category := lounge;
     is_closed := false; is_hidden := false; is_moderated := false;
     has_events := false; first_post := plain_post |}.

Definition other_thread0 : Thread :=
  {| pk := 8; title := "Hello again"; weight := 0; category := lounge;
     is_closed := false; is_hidden := false; is_moderated := false;
     has_events := false; first_post := set_post_is_hidden plain_post false |}.

(** An environment whose [synchronize] recomputes [is_moderated] from the
    first post, and whose [merge] leaves the instance alone. *)
Definition env0 : Env :=
  {| now := 1000;
     synchronize := fun t =>
       {| pk := pk t; title := title t; weight := weight t;
          category := category t; is_closed := is_closed t;
          is_hidden := is_hidden t;
          is_moderated := post_is_moderated (first_post t);
          has_events := has_events t; first_post := first_post t |};
     merge := fun t _ => t |}.

Definition world0 : World := {| env := env0; committed := [] |}.

Definition hidden_thread : Thread := set_is_hidden plain_thread true.

Definition moderated_thread : Thread :=
  {| pk := 9; title := "Awaiting approval"; weight := 0; category := lounge;
     is_closed := true; is_hidden := false; is_moderated := true;
     has_events := false;
     first_post := set_post_is_moderated plain_post true |}.

(** The database after [delete_thread] ran on [plain_thread]. *)
Definition deleted_world : World :=
  snd (delete_thread alice plain_thread world0).

(** The thread and the database after [merge_thread] merged
    [other_thread0] into [plain_thread]. *)
Definition merged_thread : Thread :=
  snd (fst (merge_thread alice plain_thread other_thread0 world0)).

Definition merged_world : World :=
  snd (merge_thread alice plain_thread other_thread0 world0).

(** *** What an invocation wrote, and what a save covers *)

(** The actions whose effect on the instance the module fixes alone: their
    body calls neither [synchronize] nor [merge] nor [delete]. *)
Definition self_contained (a : Action) : bool :=
  match a with
  | Announce | Pin | RemoveWeight | Move _ | Open | Close | Hide => true
  | _ => false
  end.

(** The effects committed between the database [w] and the later [w']. *)
Definition written (w w' : World) : list Effect :=
  concat (skipn (length (committed w)) (committed w')).

(** The instance of the last thread save among a list of effects. *)
Fixpoint last_thread_saved (l : list Effect) : option Thread :=
  match l with
  | [] => None
  | ThreadSaved t _ :: l' =>
      match last_thread_saved l' with
      | Some t' => Some t'
      | None => Some t
      end
  | _ :: l' => last_thread_saved l'
  end.

(** Every column of the thread that [update_fields] does not list has in
    [after] the value it has in [before]. *)
Definition thread_columns_kept (update_fields : list string)
    (before after : Thread) : Prop :=
  pk after = pk before /\
  title after = title before /\
  (~ In "weight" update_fields -> weight after = weight before) /\
  (~ In "category" update_fields -> category after = category before) /\
  (~ In "is_closed" update_fields -> is_closed after = is_closed before) /\
  (~ In "is_hidden" update_fields -> is_hidden after = is_hidden before) /\
  (~ In "is_moderated" update_fields ->
   is_moderated after = is_moderated before) /\
  (~ In "has_events" update_fields -> has_events after = has_events before).

(** The same for the columns of a post. *)
Definition post_columns_kept (update_fields : list string)
    (before after : Post) : Prop :=
  post_pk after = post_pk before /\
  (~ In "is_hidden" update_fields ->
   post_is_hidden after = post_is_hidden before) /\
  (~ In "is_moderated" update_fields ->
   post_is_moderated after = post_is_moderated before) /\
  (~ In "hidden_by" update_fields -> hidden_by after = hidden_by before) /\
  (~ In "hidden_by_name" update_fields ->
   hidden_by_name after = hidden_by_name before) /\
  (~ In "hidden_by_slug" update_fields ->
   hidden_by_slug after = hidden_by_slug before) /\
  (~ In "hidden_on" update_fields -> hidden_on after = hidden_on before).

Definition bob : User :=
  {| user_pk := 2; username := "bob"; user_slug := "bob" |}.

End Moderation.

(* ===================================================================== *)
(** ** Generic admin views *)
(* ===================================================================== *)

Module AdminViews.

(** *** Exceptions and results *)

(** The exception classes the views raise or catch.  [ExplicitFirstPage]
    comes from [misago.core.exceptions], [EmptyPage] and
    [PageNotAnInteger] from the paginator, [DoesNotExist] from the model;
    each is a class of its own, none a subclass of [ValueError]. *)
Inductive Exception :=
| ExplicitFirstPage
| ValueError
| TypeError
| IndexError
| NameError
| ZeroDivisionError
| EmptyPage
| PageNotAnInteger
| DoesNotExist.

Inductive Result (A : Type) :=
| Return (a : A)
| Raise (e : Exception).
Arguments Return {A} a.
Arguments Raise {A} e.

Definition rbind {A B : Type} (r : Result A) (k : A -> Result B) : Result B :=
  match r with
  | Return a => k a
  | Raise e => Raise e
  end.

Notation "x <- r ;; k" := (rbind r (fun x => k))
  (at level 100, r at next level, right associativity).

(** *** Requests and responses *)

Record Message := {
  level : string;
  text : string;
}.

(** The parts of the request the views read or write: method and form
    data, the session, the message storage and the resolved URL name. *)
Record Request := {
  method : string;
  POST : gmap string string;
  session : gmap string string;
  messages : list Message;
  namespace : string;
  url_name : string;
}.

Definition set_session (request : Request) (s : gmap string string) : Request :=
  {| method := method request; POST := POST request; session := s;
     messages := messages request; namespace := namespace request;
     url_name := url_name request |}.

(** [messages.error(request, text)] *)
Definition messages_error (request : Request) (t : string) : Request :=
  {| method := method request; POST := POST request;
     session := session request;
     messages := messages request ++ [{| level := "error"; text := t |}];
     namespace := namespace request; url_name := url_name request |}.

(** A view running on a request: a result or an exception, and the
    request as the view leaves it. *)
Definition M (A : Type) : Type := Request -> Result A * Request.

(** A value of a URL keyword argument: an integer or a string. *)
Inductive PyVal :=
| PyInt (n : Z)
| PyStr (s : string).

(** [AdminView.current_link] *)
Definition current_link (request : Request) : string :=
  (namespace request ++ ":" ++ url_name request)%string.

(** The query set interface the views use: [order_by], [count] and the
    slice [qs[bottom:top]]. *)
Class QuerySet (Q : Type) := {
  order_by : Q -> string -> Q;
  count : Q -> Z;
  slice : Q -> Z -> Z -> Q;
}.

Section Views.

Context {Q : Type} `{QuerySet Q}.

(** [int(s)] on a string, [None] when it raises [ValueError]. *)
Variable int_of_string : string -> option Z.

(** [int(value)] *)
Definition int (value : PyVal) : Result Z :=
  match value with
  | PyInt n => Return n
  | PyStr s =>
      match int_of_string s with
      | Some n => Return n
      | None => Raise ValueError
      end
  end.

(** *** The paginator, as far as [paginate_items] uses it *)

Record Paginator := {
  object_list : Q;
  per_page : Z;
  allow_empty_first_page : bool;
}.

Record Page := {
  page_object_list : Q;
  number : Z;
  page_paginator : Paginator;
}.

(** [Paginator.num_pages]: [ceil(hits / float(per_page))], with
    [hits = max(1, count)]. *)
Definition num_pages (p : Paginator) : Result Z :=
  if (count (object_list p) =? 0) && negb (allow_empty_first_page p) then
    Return 0
  else
    let hits := Z.max 1 (count (object_list p)) in
    if per_page p =? 0 then Raise ZeroDivisionError
    else Return (- ((- hits) / per_page p)).

(** [Paginator.validate_number] *)
Definition validate_number (p : Paginator) (value : PyVal) : Result Z :=
  match int value with
  | Raise _ => Raise PageNotAnInteger
  | Return n =>
      if n <? 1 then Raise EmptyPage
      else
        pages <- num_pages p ;;
        if n >? pages then
          if (n =? 1) && allow_empty_first_page p then Return n
          else Raise EmptyPage
        else Return n
  end.

(** [Paginator.page] *)
Definition paginator_page (p : Paginator) (value : PyVal) : Result Page :=
  n <- validate_number p value ;;
  let bottom := (n - 1) * per_page p in
  let top := bottom + per_page p in
  let top := if top >=? count (object_list p) then count (object_list p) else top in
  Return {| page_object_list := slice (object_list p) bottom top;
            number := n; page_paginator := p |}.

(** *** ListView *)

(** An entry of [context['order_by']], and [context['order']]. *)
Record OrderDict := {
  name : string;
  order_by_key : string;
  type : string;
}.

(** The template context of a list view. *)
Record Context := {
  items : Q;
  paginator : option Paginator;
  page : option Page;
  ctx_order_by : list OrderDict;
  order : option OrderDict;
  ctx_root_link : option string;
  ctx_current_link : option string;
}.

Definition set_items (c : Context) (v : Q) : Context :=
  {| items := v; paginator := paginator c; page := page c;
     ctx_order_by := ctx_order_by c; order := order c;
     ctx_root_link := ctx_root_link c; ctx_current_link := ctx_current_link c |}.

Definition set_paginator (c : Context) (v : option Paginator) : Context :=
  {| items := items c; paginator := v; page := page c;
     ctx_order_by := ctx_order_by c; order := order c;
     ctx_root_link := ctx_root_link c; ctx_current_link := ctx_current_link c |}.

Definition set_page (c : Context) (v : option Page) : Context :=
  {| items := items c; paginator := paginator c; page := v;
     ctx_order_by := ctx_order_by c; order := order c;
     ctx_root_link := ctx_root_link c; ctx_current_link := ctx_current_link c |}.

Definition set_ctx_order_by (c : Context) (v : list OrderDict) : Context :=
  {| items := items c; paginator := paginator c; page := page c;
     ctx_order_by := v; order := order c;
     ctx_root_link := ctx_root_link c; ctx_current_link := ctx_current_link c |}.

Definition set_order (c : Context) (v : option OrderDict) : Context :=
  {| items := items c; paginator := paginator c; page := page c;
     ctx_order_by := ctx_order_by c; order := v;
     ctx_root_link := ctx_root_link c; ctx_current_link := ctx_current_link c |}.

Definition set_links (c : Context) (root current : string) : Context :=
  {| items := items c; paginator := paginator c; page := page c;
     ctx_order_by := ctx_order_by c; order := order c;
     ctx_root_link := Some root; ctx_current_link := Some current |}.

Inductive Response :=
| Redirect (to : string)
| Rendered (template_name : string) (context : Context).

(** The class attributes of a list view and the query set
    [get_queryset] returns.  [ordering] is [None] or the declared
    [(name, order_by)] pairs. *)
Record ListView := {
  root_link : string;
  template_dir : string;
  template : string;
  items_per_page : Z;
  ordering : option (list (string * string));
  get_queryset : Q;
}.

(** [AdminView.final_template] *)
Definition final_template (view : ListView) : string :=
  (template_dir view ++ "/" ++ template view)%string.

(** [AdminView.render]; [process_context] hands the context back as it is. *)
Definition render (view : ListView) (context : Context) : M Response :=
  fun request =>
    let context := set_links context (root_link view) (current_link request) in
    (Return (Rendered (final_template view) context), request).

(** [ListView.paginate_items].  [ExplicitFirstPage] is no [ValueError]:
    the handler lets it through.  The handler assigns [page_no], so [page]
    stays the value that [int] refused. *)
Definition paginate_items (view : ListView) (context : Context) (page_arg : PyVal)
  : Result Context :=
  page_arg <-
    match int page_arg with
    | Return n =>
        if n =? 1 then Raise ExplicitFirstPage
        else if n =? 0 then Return (PyInt 1)
        else Return (PyInt n)
    | Raise ValueError => Return page_arg
    | Raise e => Raise e
    end ;;
  let pg := {| object_list := items context; per_page := items_per_page view;
               allow_empty_first_page := true |} in
  let context := set_paginator context (Some pg) in
  p <- paginator_page pg page_arg ;;
  let context := set_page context (Some p) in
  let context := set_items context (page_object_list p) in
  Return context.

(** [ListView.ordering_session_key] *)
Definition ordering_session_key (view : ListView) : string :=
  ("misago_admin_" ++ root_link view ++ "_order_by")%string.

(** The [for ... else] of [ListView.set_ordering]. *)
Fixpoint set_ordering_loop (view : ListView) (orderings : list (string * string))
    (new_order : string) : M Response :=
  fun request =>
    match orderings with
    | order :: rest =>
        if (snd order =? new_order)%string then
          let request :=
            set_session request
              (<[ordering_session_key view := snd order]> (session request)) in
          (Return (Redirect (current_link request)), request)
        else set_ordering_loop view rest new_order request
    | [] =>
        let request := messages_error request "New sorting method is incorrect." in
        (Raise ValueError, request)
    end.

(** [ListView.set_ordering] *)
Definition set_ordering (view : ListView) (new_order : string) : M Response :=
  fun request =>
    match ordering view with
    | Some orderings => set_ordering_loop view orderings new_order request
    | None => (Raise TypeError, request)
    end.

(** ['desc' if order[1][0] == '-' else 'asc'] *)
Definition order_type (key : string) : Result string :=
  match key with
  | EmptyString => Raise IndexError
  | String c _ => Return (if Ascii.eqb c "-"%char then "desc" else "asc")
  end.

Definition is_current (key : string) (current_ordering : option string) : bool :=
  match current_ordering with
  | Some c => (key =? c)%string
  | None => false
  end.

(** The dictionary [order_as_dict] built for a declared ordering. *)
Definition order_as_dict (order : string * string) : Result OrderDict :=
  t <- order_type (snd order) ;;
  Return {| name := fst order; order_by_key := snd order; type := t |}.

(** The [for] loop of [ListView.order_items]. *)
Fixpoint order_items_loop (orderings : list (string * string))
    (current_ordering : option string) (context : Context) : Result Context :=
  match orderings with
  | [] => Return context
  | order :: rest =>
      order_as_dict <- order_as_dict order ;;
      let context :=
        if is_current (snd order) current_ordering then
          let context := set_order context (Some order_as_dict) in
          set_items context (order_by (items context) (order_by_key order_as_dict))
        else
          set_ctx_order_by context (ctx_order_by context ++ [order_as_dict]) in
      order_items_loop rest current_ordering context
  end.

(** [ListView.order_items] *)
Definition order_items (view : ListView) (request : Request) (context : Context)
  : Result Context :=
  let current_ordering := session request !! ordering_session_key view in
  match ordering view with
  | None => Raise TypeError
  | Some orderings =>
      context <- order_items_loop orderings current_ordering context ;;
      match order context with
      | Some _ => Return context
      | None =>
          match ctx_order_by context with
          | [] => Raise IndexError
          | current_ordering :: rest =>
              let context := set_ctx_order_by context rest in
              let context := set_order context (Some current_ordering) in
              Return (set_items context
                        (order_by (items context) (order_by_key current_ordering)))
          end
      end
  end.

(** The context [ListView.dispatch] starts from. *)
Definition initial_context (view : ListView) : Context :=
  {| items := get_queryset view; paginator := None; page := None;
     ctx_order_by := []; order := None;
     ctx_root_link := None; ctx_current_link := None |}.

(** [ListView.dispatch] past a submission of a sort key: order, paginate,
    render. *)
Definition list_items (view : ListView) (kwargs : gmap string PyVal) : M Response :=
  fun request =>
    let context := initial_context view in
    match
      match ordering view with
      | Some (_ :: _) => order_items view request context
      | _ => Return context
      end
    with
    | Raise e => (Raise e, request)
    | Return context =>
        match
          if items_per_page view =? 0 then Return context
          else paginate_items view context (default (PyInt 0) (kwargs !! "page"))
        with
        | Raise e => (Raise e, request)
        | Return context => render view context request
        end
    end.

(** [ListView.dispatch] *)
Definition dispatch (view : ListView) (kwargs : gmap string PyVal) : M Response :=
  fun request =>
    match ordering view with
    | Some (_ :: _) =>
        if (method request =? "POST")%string then
          match POST request !! "order_by" with
          | Some new_order =>
              match set_ordering view new_order request with
              | (Return response, request) => (Return response, request)
              | (Raise ValueError, request) => list_items view kwargs request
              | (Raise e, request) => (Raise e, request)
              end
          | None => list_items view kwargs request
          end
        else list_items view kwargs request
    | _ => list_items view kwargs request
    end.

(** *** TargetedView *)

(** A targeted view over a model with instances [Target]: class
    attributes, the model manager's [get] ([None] when it raises
    [DoesNotExist]), the constructor [Model()], and the two hooks a
    subclass fills in.  The lookup is modelled on keys the manager can
    read; a key it cannot convert, on which it raises another exception, is
    outside this model. *)
Record TargetedView (Target : Type) := {
  message_404 : string;
  target_root_link : string;
  objects_get : PyVal -> option Target;
  new_instance : Target;
  check_permissions : Request -> Target -> option string;
  real_dispatch : Target -> M Response;
}.
Arguments message_404 {Target} _.
Arguments target_root_link {Target} _.
Arguments objects_get {Target} _ _.
Arguments new_instance {Target} _.
Arguments check_permissions {Target} _ _ _.
Arguments real_dispatch {Target} _ _ _.

(** [TargetedView.get_target]; [kwargs] in the order of [kwargs.keys()]. *)
Definition get_target {Target : Type} (view : TargetedView Target)
    (kwargs : list (string * PyVal)) : Result Target :=
  match kwargs with
  | (_, value) :: _ =>
      match objects_get view value with
      | Some target => Return target
      | None => Raise DoesNotExist
      end
  | [] => Return (new_instance view)
  end.

(** [TargetedView.get_target_or_none] *)
Definition get_target_or_none {Target : Type} (view : TargetedView Target)
    (kwargs : list (string * PyVal)) : Result (option Target) :=
  match get_target view kwargs with
  | Return target => Return (Some target)
  | Raise DoesNotExist => Return None
  | Raise e => Raise e
  end.

(** [TargetedView.dispatch]; a model instance is a true value, and of the
    values [check_permissions] returns only a non-empty message is. *)
Definition targeted_dispatch {Target : Type} (view : TargetedView Target)
    (kwargs : list (string * PyVal)) : M Response :=
  fun request =>
    match get_target_or_none view kwargs with
    | Raise e => (Raise e, request)
    | Return None =>
        let request := messages_error request (message_404 view) in
        (Return (Redirect (target_root_link view)), request)
    | Return (Some target) =>
        match check_permissions view request target with
        | Some (String _ _ as error) =>
            let request := messages_error request error in
            (Return (Redirect (target_root_link view)), request)
        | _ => real_dispatch view target request
        end
    end.

(** [AdminView._get_target]: its body passes [target] to [get_target], a
    name bound neither as a parameter nor in the module, so the call
    raises [NameError] before the lookup; the handler for
    [Model.DoesNotExist] does not apply to it. *)
Definition _get_target {Target : Type} (view : TargetedView Target)
    (kwargs : list (string * PyVal)) : M (Target + Response) :=
  fun request => (Raise NameError, request).

(** *** ButtonView *)

(** [ButtonView.real_dispatch]; [button_action] is the method a subclass
    defines, which answers with a response or with [None]. *)
Definition button_real_dispatch {Target : Type} (root : string)
    (button_action : Target -> M (option Response)) (target : Target)
  : M Response :=
  fun request =>
    if (method request =? "POST")%string then
      match button_action target request with
      | (Return (Some new_response), request) => (Return new_response, request)
      | (Return None, request) => (Return (Redirect root), request)
      | (Raise e, request) => (Raise e, request)
      end
    else (Return (Redirect root), request).

(** A button view: the targeted view whose [real_dispatch] is
    [ButtonView]'s. *)
Definition ButtonView {Target : Type} (message root : string)
    (get : PyVal -> option Target) (fresh : Target)
    (permissions : Request -> Target -> option string)
    (button_action : Target -> M (option Response)) : TargetedView Target :=
  {| message_404 := message;
     target_root_link := root;
     objects_get := get;
     new_instance := fresh;
     check_permissions := permissions;
     real_dispatch := button_real_dispatch root button_action |}.

End Views.

Arguments Paginator Q : clear implicits.
Arguments Page Q : clear implicits.
Arguments Context Q : clear implicits.
Arguments Response Q : clear implicits.
Arguments ListView Q : clear implicits.
Arguments TargetedView Q Target : clear implicits.
Arguments message_404 {Q Target} _.
Arguments target_root_link {Q Target} _.
Arguments objects_get {Q Target} _ _.
Arguments new_instance {Q Target} _.
Arguments check_permissions {Q Target} _ _ _.
Arguments real_dispatch {Q Target} _ _ _.

(** *** Sample data *)

(** Rows held in a list, ordered by their value: [order_by] sorts
    ascending, or descending for a key that starts with a dash. *)
Fixpoint insert_sorted (descending : bool) (x : Z) (l : list Z) : list Z :=
  match l with
  | [] => [x]
  | y :: l' =>
      if (if descending then y <=? x else x <=? y) then x :: l
      else y :: insert_sorted descending x l'
  end.

Definition sort_rows (descending : bool) (l : list Z) : list Z :=
  fold_right (insert_sorted descending) [] l.

#[export] Instance list_queryset : QuerySet (list Z) := {
  order_by l key :=
    match key with
    | String c _ => sort_rows (Ascii.eqb c "-"%char) l
    | EmptyString => l
    end;
  count l := Z.of_nat (length l);
  slice l bottom top :=
    firstn (Z.to_nat (top - bottom)) (skipn (Z.to_nat bottom) l);
}.

(** Decimal numerals, as a stand-in for [int] on strings. *)
Fixpoint digits (s : string) (acc : Z) : option Z :=
  match s with
  | EmptyString => Some acc
  | String c rest =>
      let d := Z.of_nat (nat_of_ascii c) - 48 in
      if (0 <=? d) && (d <=? 9) then digits rest (10 * acc + d) else None
  end.

Definition decimal (s : string) : option Z :=
  match s with
  | EmptyString => None
  | _ => digits s 0
  end.

Definition users_view : ListView (list Z) :=
  {| root_link := "misago:admin:users:accounts:index";
     template_dir := "misago/admin/users";
     template := "list.html";
     items_per_page := 2;
     ordering := Some [("Newest", "-id"); ("Oldest", "id")];
     get_queryset := [3; 1; 2] |}.

Definition sort_request : Request :=
  {| method := "POST";
     POST := {["order_by" := "username"]};
     session := ∅;
     messages := [];
     namespace := "misago:admin:users:accounts";
     url_name := "index" |}.

Definition ranks_view : TargetedView (list Z) Z :=
  {| message_404 := "Requested rank does not exist.";
     target_root_link := "misago:admin:users:ranks:index";
     objects_get := fun value =>
       match value with
       | PyInt 1 => Some 1
       | PyStr "1" => Some 1
       | _ => None
       end;
     new_instance := 0;
     check_permissions := fun _ _ => None;
     real_dispatch := fun _ request =>
       (Return (Redirect "misago:admin:users:ranks:index"), request) |}.

(** A button that deletes the rank it is pressed on: the action flashes
    nothing and answers [None]. *)
Definition delete_rank_view : TargetedView (list Z) Z :=
  ButtonView "Requested rank does not exist." "misago:admin:users:ranks:index"
    (objects_get ranks_view) 0 (fun _ _ => None)
    (fun _ request => (Return None, request)).

(** A view that declares an ordering without a key. *)
Definition keyless_view : ListView (list Z) :=
  {| root_link := "misago:admin:users:accounts:index";
     template_dir := "misago/admin/users";
     template := "list.html";
     items_per_page := 0;
     ordering := Some [("Newest", "-id"); ("Default", "")];
     get_queryset := [3; 1; 2] |}.

Definition list_request : Request :=
  {| method := "GET";
     POST := ∅;
     session := ∅;
     messages := [];
     namespace := "misago:admin:users:accounts";
     url_name := "index" |}.

Definition valid_sort_request : Request :=
  {| method := "POST";
     POST := {["order_by" := "id"]};
     session := ∅;
     messages := [];
     namespace := "misago:admin:users:accounts";
     url_name := "index" |}.

End AdminViews.

(* ===================================================================== *)
(** ** URLs of the thread type *)
(* ===================================================================== *)

Module ThreadTypes.

(** The attributes of categories, threads and posts the helpers read. *)
Record Category := {
  level : Z;
  name : string;
  pk : Z;
  slug : string;
  last_thread_slug : string;
  last_thread_id : Z;
}.

Record Thread := {
  thread_slug : string;
  thread_pk : Z;
}.

Record Post := {
  post_pk : Z;
  post_thread : Thread;
  thread_id : Z;
}.

Section Urls.

(** [reverse(name, kwargs=...)] of the URL resolver, and the text [%s]
    makes of an integer key. *)
Variable reverse : string -> gmap string AdminViews.PyVal -> string.
Variable str : Z -> string.

Definition slug_and_pk (s : string) (k : Z) : gmap string AdminViews.PyVal :=
  <["slug" := AdminViews.PyStr s]> (<["pk" := AdminViews.PyInt k]> ∅).

Definition get_category_name (category : Category) : string :=
  if negb (level category =? 0) then name category
  else "None (will become top level category)".

Definition get_category_absolute_url (category : Category) : string :=
  if negb (level category =? 0) then
    reverse "misago:category"
      (<["pk" := AdminViews.PyInt (pk category)]>
         (<["slug" := AdminViews.PyStr (slug category)]> ∅))
  else reverse "misago:threads" ∅.

Definition get_category_last_thread_url (category : Category) : string :=
  reverse "misago:thread"
    (slug_and_pk (last_thread_slug category) (last_thread_id category)).

Definition get_category_last_post_url (category : Category) : string :=
  reverse "misago:thread-last"
    (slug_and_pk (last_thread_slug category) (last_thread_id category)).

Definition get_category_api_read_url (category : Category) : string :=
  if negb (level category =? 0) then
    (reverse "misago:api:thread-read" ∅ ++ "?category=" ++ str (pk category))%string
  else reverse "misago:api:thread-read" ∅.

(** [page] is 1 when the caller leaves it out. *)
Definition get_thread_absolute_url (thread : Thread) (page : Z) : string :=
  if page >? 1 then
    reverse "misago:thread"
      (<["slug" := AdminViews.PyStr (thread_slug thread)]>
         (<["pk" := AdminViews.PyInt (thread_pk thread)]>
            (<["page" := AdminViews.PyInt page]> ∅)))
  else
    reverse "misago:thread" (slug_and_pk (thread_slug thread) (thread_pk thread)).

Definition get_thread_last_post_url (thread : Thread) : string :=
  reverse "misago:thread-last"
    (slug_and_pk (thread_slug thread) (thread_pk thread)).

Definition get_thread_new_post_url (thread : Thread) : string :=
  reverse "misago:thread-new"
    (slug_and_pk (thread_slug thread) (thread_pk thread)).

Definition get_thread_unapproved_post_url (thread : Thread) : string :=
  reverse "misago:thread-unapproved"
    (slug_and_pk (thread_slug thread) (thread_pk thread)).

Definition get_thread_api_url (thread : Thread) : string :=
  reverse "misago:api:thread-detail"
    (<["pk" := AdminViews.PyInt (thread_pk thread)]> ∅).

Definition get_post_absolute_url (post : Post) : string :=
  reverse "misago:thread-post"
    (<["slug" := AdminViews.PyStr (thread_slug (post_thread post))]>
       (<["pk" := AdminViews.PyInt (thread_pk (post_thread post))]>
          (<["post" := AdminViews.PyInt (post_pk post)]> ∅))).

Definition get_post_api_url (post : Post) : string :=
  reverse "misago:api:thread-post-detail"
    (<["thread_pk" := AdminViews.PyInt (thread_id post)]>
       (<["pk" := AdminViews.PyInt (post_pk post)]> ∅)).

End Urls.

(** *** Sample data *)

Definition welcome : Thread := {| thread_slug := "welcome"; thread_pk := 7 |}.

Definition news : Category :=
  {| level := 1; name := "News"; pk := 3; slug := "news";
     last_thread_slug := "welcome"; last_thread_id := 7 |}.

(** A resolver that tells URLs apart by name and by the [pk] and [page]
    arguments. *)
Definition sample_reverse (name : string)
    (kwargs : gmap string AdminViews.PyVal) : string :=
  match kwargs !! "pk", kwargs !! "page" with
  | Some (AdminViews.PyInt 7), None => (name ++ "/7")%string
  | Some (AdminViews.PyInt 7), Some _ => (name ++ "/7/page")%string
  | _, _ => name
  end.

End ThreadTypes.

(* ===================================================================== *)
(** ** Properties of the moderation actions *)
(* ===================================================================== *)

Module ModerationFacts.
Import Moderation.

Lemma effects_commit (w : World) (tx : list Effect) :
  effects (commit w tx) = effects w ++ tx.
Proof.
  unfold effects, commit; simpl.
  rewrite concat_app; simpl.
  now rewrite app_nil_r.
Qed.

Lemma events_of_app (l1 l2 : list Effect) :
  events_of (l1 ++ l2) = events_of l1 ++ events_of l2.
Proof.
  induction l1 as [|e l1 IH]; simpl; [reflexivity|].
  destruct e; simpl; rewrite ?IH; reflexivity.
Qed.

#[local] Arguments effects : simpl never.
#[local] Arguments commit : simpl never.

(** Unfolds an action down to its guard. *)
Ltac unfold_action :=
  unfold run, announce_thread, pin_thread, remove_thread_weight, move_thread,
    merge_thread, approve_thread, open_thread, close_thread, unhide_thread,
    hide_thread, delete_thread, atomic, record_event, thread_save, post_save,
    thread_move, thread_merge, thread_synchronize, thread_delete, log;
  cbn [in_target_state guarded events_issued saves_issued].

(** Settles the guard of an action from a hypothesis on its test. *)
Ltac settle_guard H :=
  cbn [in_target_state] in H;
  first
    [ rewrite H
    | match type of H with
      | negb ?b = _ => destruct b; try discriminate H
      | ?b = _ => destruct b; try discriminate H
      end ];
  cbn.

(** C1 (as stated, refuted).  [delete_thread] on a thread the database
    already records as deleted, and [merge_thread] on a pair the database
    already records as merged, both return true; the second records one
    more audit event. *)
Lemma satisfied_merge_and_delete_return_true :
  (in_target_state Delete plain_thread deleted_world = true /\
   fst (fst (run Delete alice plain_thread deleted_world)) = true) /\
  (in_target_state (Merge other_thread0) merged_thread merged_world = true /\
   fst (fst (run (Merge other_thread0) alice merged_thread merged_world)) = true /\
   length (events_of
             (effects (snd (run (Merge other_thread0) alice merged_thread
                              merged_world)))) =
   S (length (events_of (effects merged_world)))).
Proof. vm_compute. repeat split. Qed.

(** C1 (amended).  An action whose body is under a test of the thread's
    state (announce, pin, remove weight, move, approve, open, close, unhide,
    hide), invoked on a thread already in its target state, returns false
    and leaves the thread and the database, hence the audit trail, as they
    were.  [merge_thread] and [delete_thread] have no test and return
    true. *)
Theorem satisfied_action_is_noop
    (a : Action) (user : User) (thread : Thread) (w : World) :
  in_target_state a thread w = true ->
  if guarded a then run a user thread w = (false, thread, w)
  else fst (fst (run a user thread w)) = true.
Proof.
  intros Ht.
  destruct a; unfold_action; try reflexivity; settle_guard Ht; reflexivity.
Qed.

Lemma satisfied_action_is_noop_witness :
  in_target_state Announce (set_weight plain_thread 2) world0 = true /\
  run Announce alice (set_weight plain_thread 2) world0 =
    (false, set_weight plain_thread 2, world0).
Proof.
  split; [reflexivity|].
  apply (satisfied_action_is_noop Announce alice (set_weight plain_thread 2) world0).
  reflexivity.
Defined.

(** C2 (as stated, refuted).  [delete_thread] on a thread not yet deleted
    returns true and appends no audit event. *)
Lemma delete_thread_records_no_event :
  in_target_state Delete plain_thread world0 = false /\
  fst (fst (run Delete alice plain_thread world0)) = true /\
  ~ (exists e,
       events_of (effects (snd (run Delete alice plain_thread world0))) =
       events_of (effects world0) ++ [e]).
Proof.
  repeat split.
  intros [e He]. vm_compute in He. discriminate He.
Qed.

(** C2 (amended).  An action invoked on a thread not in its target state
    returns true.  Every action but [delete_thread] appends exactly one
    audit event, on this thread and by the acting user; [delete_thread]
    appends none.  Besides the derived flag [has_events], announce, pin and
    remove weight change only [weight], move only [category], open and
    close only [is_closed], hide only [is_hidden] and the first post's
    [is_hidden] and hide metadata; unhide changes only [is_hidden] on the
    thread and on its first post before it hands the thread to
    [synchronize]; delete changes no field. *)
Theorem unsatisfied_action_changes_documented_fields
    (a : Action) (user : User) (thread : Thread) (w : World) :
  in_target_state a thread w = false ->
  let '(changed, thread', w') := run a user thread w in
  changed = true /\
  (match a with
   | Delete => events_of (effects w') = events_of (effects w)
   | _ => exists e,
       event_thread e = pk thread /\ event_author e = user /\
       events_of (effects w') = events_of (effects w) ++ [e]
   end) /\
  match a with
  | Announce => thread' = set_weight (set_has_events thread true) 2
  | Pin => thread' = set_weight (set_has_events thread true) 1
  | RemoveWeight => thread' = set_weight (set_has_events thread true) 0
  | Move new_category =>
      thread' = set_category (set_has_events thread true) new_category
  | Open => thread' = set_is_closed (set_has_events thread true) false
  | Close => thread' = set_is_closed (set_has_events thread true) true
  | Hide =>
      thread' =
        set_is_hidden
          (set_first_post (set_has_events thread true)
             {| post_pk := post_pk (first_post thread);
                post_is_hidden := true;
                post_is_moderated := post_is_moderated (first_post thread);
                hidden_by := Some user;
                hidden_by_name := Some (username user);
                hidden_by_slug := Some (user_slug user);
                hidden_on := Some (now (env w)) |})
          true
  | Unhide =>
      thread' =
        synchronize (env w)
          (set_is_hidden
             (set_first_post (set_has_events thread true)
                (set_post_is_hidden (first_post thread) false))
             false)
  | Delete => thread' = thread
  | Merge _ | Approve => True
  end.
Proof.
  intros Ht.
  destruct a; unfold_action; try settle_guard Ht;
    (split; [reflexivity|]);
    rewrite ?effects_commit, ?events_of_app; cbn;
    (split; [|reflexivity]);
    try (eexists; repeat split; reflexivity).
  now rewrite app_nil_r.
Qed.

Lemma unsatisfied_action_changes_documented_fields_witness :
  in_target_state Pin plain_thread world0 = false /\
  let '(changed, thread', w') := run Pin alice plain_thread world0 in
  changed = true /\
  (exists e,
     event_thread e = pk plain_thread /\ event_author e = alice /\
     events_of (effects w') = events_of (effects world0) ++ [e]) /\
  thread' = set_weight (set_has_events plain_thread true) 1.
Proof.
  split; [reflexivity|].
  apply (unsatisfied_action_changes_documented_fields Pin alice plain_thread world0).
  reflexivity.
Defined.

(** C3 (as stated, refuted).  [unhide_thread] on a hidden thread saves the
    thread twice, and the second save has no [update_fields]. *)
Lemma unhide_thread_saves_twice :
  fst (fst (unhide_thread alice hidden_thread world0)) = true /\
  thread_saves (effects (snd (unhide_thread alice hidden_thread world0))) =
    [Some ["has_events"; "is_hidden"]; None].
Proof. vm_compute. split; reflexivity. Qed.

(** C3 (amended).  An invocation of a moderation action either changes
    nothing and returns false (thread and database as they were), or
    returns true after one transaction that holds all its writes.  That
    transaction has exactly one audit event, none for [delete_thread].  It
    saves the thread once, with [update_fields], for announce, pin, remove
    weight, move, approve, open, close and hide; twice for unhide, first
    with [update_fields] and then in full; and not at all for
    [merge_thread] and [delete_thread]. *)
Theorem action_is_noop_or_one_transaction
    (a : Action) (user : User) (thread : Thread) (w : World) :
  let '(changed, thread', w') := run a user thread w in
  (changed = false /\ thread' = thread /\ w' = w) \/
  (changed = true /\
   exists tx,
     w' = commit w tx /\
     length (events_of tx) = events_issued a /\
     thread_saves tx = saves_issued a).
Proof.
  destruct a; unfold_action; cbn;
    repeat match goal with
    | |- context [if ?b then _ else _] => destruct b; cbn
    end;
    try (left; repeat split; reflexivity);
    right; (split; [reflexivity|]); eexists; repeat split; reflexivity.
Qed.

(** C4.  On a thread that is not hidden, [hide_thread] sets on the first
    post [is_hidden] and the hide metadata: [hidden_by], [hidden_by_name]
    and [hidden_by_slug] from the acting user, [hidden_on] from the clock,
    and saves these five columns.  On a hidden thread, [unhide_thread]
    assigns nothing but [is_hidden] on the first post and on the thread:
    the hide metadata of the first post is as before, the one save of the
    post lists [is_hidden] alone, and the audit events recorded before are
    still there, followed by the new one. *)
Theorem hide_sets_metadata_unhide_keeps_it
    (user : User) (visible hidden : Thread) (w : World) :
  is_hidden visible = false ->
  is_hidden hidden = true ->
  (let '(changed, thread', w') := hide_thread user visible w in
   changed = true /\
   is_hidden thread' = true /\
   first_post thread' =
     {| post_pk := post_pk (first_post visible);
        post_is_hidden := true;
        post_is_moderated := post_is_moderated (first_post visible);
        hidden_by := Some user;
        hidden_by_name := Some (username user);
        hidden_by_slug := Some (user_slug user);
        hidden_on := Some (now (env w)) |} /\
   exists tx,
     w' = commit w tx /\
     In (PostSaved (first_post thread')
           (Some ["is_hidden"; "hidden_by"; "hidden_by_name"; "hidden_by_slug";
                  "hidden_on"])) tx) /\
  (let '(changed, thread', w') := unhide_thread user hidden w in
   let shown :=
     set_is_hidden
       (set_first_post (set_has_events hidden true)
          (set_post_is_hidden (first_post hidden) false))
       false in
   changed = true /\
   thread' = synchronize (env w) shown /\
   is_hidden shown = false /\
   post_is_hidden (first_post shown) = false /\
   hidden_by (first_post shown) = hidden_by (first_post hidden) /\
   hidden_by_name (first_post shown) = hidden_by_name (first_post hidden) /\
   hidden_by_slug (first_post shown) = hidden_by_slug (first_post hidden) /\
   hidden_on (first_post shown) = hidden_on (first_post hidden) /\
   exists e tx,
     w' = commit w tx /\
     In (PostSaved (first_post shown) (Some ["is_hidden"])) tx /\
     post_saves tx = [Some ["is_hidden"]] /\
     events_of (effects w') = events_of (effects w) ++ [e]).
Proof.
  intros Hv Hh. split.
  - unfold_action. rewrite Hv. cbn.
    repeat split. eexists. split; [reflexivity|].
    cbn. right. left. reflexivity.
  - unfold_action. rewrite Hh. cbn.
    repeat split. do 2 eexists.
    split; [reflexivity|].
    split; [cbn; right; left; reflexivity|].
    split; [reflexivity|].
    rewrite effects_commit, events_of_app. reflexivity.
Qed.

Lemma hide_sets_metadata_unhide_keeps_it_witness :
  is_hidden plain_thread = false /\
  is_hidden hidden_thread = true /\
  first_post (snd (fst (hide_thread alice plain_thread world0))) =
    {| post_pk := 70; post_is_hidden := true; post_is_moderated := false;
       hidden_by := Some alice; hidden_by_name := Some "alice";
       hidden_by_slug := Some "alice"; hidden_on := Some 1000 |} /\
  first_post (snd (fst (unhide_thread alice hidden_thread world0))) =
    plain_post.
Proof.
  pose proof (hide_sets_metadata_unhide_keeps_it alice plain_thread
                hidden_thread world0 eq_refl eq_refl) as [Hhide Hunhide].
  destruct (hide_thread alice plain_thread world0) as [[b1 t1] w1].
  destruct (unhide_thread alice hidden_thread world0) as [[b2 t2] w2].
  destruct Hhide as (_ & _ & Hpost & _).
  destruct Hunhide as (_ & Hthread & _).
  repeat split; cbn; [exact Hpost | rewrite Hthread; reflexivity].
Defined.

(** C5 (as stated, refuted).  [merge_thread] has no test that the two
    threads differ: on a pair that shares its key it returns true and its
    delete is a delete of the destination. *)
Lemma merge_thread_same_key_deletes_destination :
  fst (fst (merge_thread alice plain_thread plain_thread world0)) = true /\
  In (ThreadDeleted (pk plain_thread))
     (effects (snd (merge_thread alice plain_thread plain_thread world0))).
Proof. vm_compute. split; [reflexivity | right; right; left; reflexivity]. Qed.

(** C5 (amended).  [merge_thread] on two different threads returns true.
    Its transaction records the event on the destination, then merges the
    source into the destination, and after that deletes the source; no
    delete of the destination is issued. *)
Theorem merge_thread_merges_then_deletes_source
    (user : User) (thread other_thread : Thread) (w : World) :
  pk thread <> pk other_thread ->
  exists e thread' tx,
    merge_thread user thread other_thread w = (true, thread', commit w tx) /\
    tx = [EventRecorded e;
          ThreadMerged (pk thread) (pk other_thread);
          ThreadDeleted (pk other_thread)] /\
    event_thread e = pk thread /\
    ~ In (ThreadDeleted (pk thread)) tx.
Proof.
  intros Hne. unfold_action. cbn.
  do 3 eexists. split; [reflexivity|]. split; [reflexivity|].
  split; [reflexivity|].
  cbn. intros [H | [H | [H | []]]]; try discriminate H.
  injection H as H. congruence.
Qed.

Lemma merge_thread_merges_then_deletes_source_witness :
  pk plain_thread <> pk other_thread0 /\
  exists e thread' tx,
    merge_thread alice plain_thread other_thread0 world0 =
      (true, thread', commit world0 tx) /\
    tx = [EventRecorded e; ThreadMerged 7 8; ThreadDeleted 8] /\
    event_thread e = 7 /\
    ~ In (ThreadDeleted 7) tx.
Proof.
  assert (Hne : pk plain_thread <> pk other_thread0) by (cbn; lia).
  split; [exact Hne|].
  exact (merge_thread_merges_then_deletes_source alice plain_thread
           other_thread0 world0 Hne).
Defined.

(** C10.  On a moderated thread, [approve_thread] assigns
    [is_closed = False] on the instance and never assigns [is_moderated]:
    the thread it hands to [synchronize] is not closed and still moderated.
    The one save of the thread lists [has_events] and [is_moderated], so
    [is_closed] is not among the columns it writes. *)
Theorem approve_thread_saves_is_moderated_not_is_closed
    (user : User) (thread : Thread) (w : World) :
  is_moderated thread = true ->
  let approved :=
    set_first_post (set_is_closed (set_has_events thread true) false)
      (set_post_is_moderated (first_post thread) false) in
  exists e tx,
    approve_thread user thread w =
      (true, synchronize (env w) approved, commit w tx) /\
    tx = [EventRecorded e;
          PostSaved (first_post approved) (Some ["is_moderated"]);
          ThreadSynchronized (pk thread);
          ThreadSaved (synchronize (env w) approved)
            (Some ["has_events"; "is_moderated"])] /\
    is_closed approved = false /\
    is_moderated approved = true /\
    thread_saves tx = [Some ["has_events"; "is_moderated"]] /\
    ~ In "is_closed" ["has_events"; "is_moderated"].
Proof.
  intros Hm. unfold_action. rewrite Hm. cbn.
  do 2 eexists. split; [reflexivity|]. split; [reflexivity|].
  split; [reflexivity|]. split; [exact Hm|]. split; [reflexivity|].
  cbn. intros [H | [H | []]]; discriminate H.
Qed.

Lemma approve_thread_saves_is_moderated_not_is_closed_witness :
  is_moderated moderated_thread = true /\
  is_closed (snd (fst (approve_thread alice moderated_thread world0))) = false /\
  thread_saves (effects (snd (approve_thread alice moderated_thread world0))) =
    [Some ["has_events"; "is_moderated"]].
Proof.
  destruct (approve_thread_saves_is_moderated_not_is_closed alice
              moderated_thread world0 eq_refl)
    as (e & tx & Hrun & Htx & _ & _ & Hsaves & _).
  rewrite Hrun. cbn [fst snd]. rewrite effects_commit, Htx.
  repeat split.
Defined.

(** *** Further properties of the actions *)

Lemma written_same (w : World) : written w w = [].
Proof. unfold written. now rewrite skipn_all. Qed.

Lemma written_commit (w : World) (tx : list Effect) :
  written w (commit w tx) = tx.
Proof.
  unfold written, commit; cbn.
  rewrite skipn_app, skipn_all, Nat.sub_diag. cbn. apply app_nil_r.
Qed.

Lemma written_commit_commit (w : World) (tx1 tx2 : list Effect) :
  written w (commit (commit w tx1) tx2) = tx1 ++ tx2.
Proof.
  unfold written, commit; cbn.
  rewrite <- app_assoc, skipn_app, skipn_all, Nat.sub_diag. cbn.
  now rewrite app_nil_r.
Qed.

Lemma commit_changes (w : World) (tx : list Effect) : commit w tx <> w.
Proof.
  intros Heq. apply (f_equal (fun x => length (committed x))) in Heq.
  unfold commit in Heq; cbn in Heq. rewrite length_app in Heq. cbn in Heq. lia.
Qed.

#[local] Arguments written : simpl never.

(** Splits on the guard of an unfolded action. *)
Ltac split_guard :=
  repeat match goal with
  | |- context [if negb ?b then _ else _] => destruct b eqn:?; cbn
  | |- context [if ?b then _ else _] => destruct b eqn:?; cbn
  end.

(** X1.  An action that calls neither [synchronize] nor [merge] nor
    [delete] leaves the thread in its target state whatever the state it
    found, so invoking it again, by any user, returns false and changes
    neither the thread nor the database. *)
Theorem self_contained_action_repeats_as_noop
    (a : Action) (user again : User) (thread : Thread) (w : World) :
  self_contained a = true ->
  let '(_, thread', w') := run a user thread w in
  in_target_state a thread' w' = true /\
  run a again thread' w' = (false, thread', w').
Proof.
  intros Ha.
  destruct a; try discriminate Ha; unfold_action; split_guard;
    rewrite ?Z.eqb_refl in *; try congruence;
    split; reflexivity.
Qed.

Lemma self_contained_action_repeats_as_noop_witness :
  run Close bob (snd (fst (run Close alice plain_thread world0)))
    (snd (run Close alice plain_thread world0)) =
  (false, snd (fst (run Close alice plain_thread world0)),
   snd (run Close alice plain_thread world0)).
Proof.
  pose proof (self_contained_action_repeats_as_noop Close alice bob
                plain_thread world0 eq_refl) as Hrepeat.
  destruct (run Close alice plain_thread world0) as [[changed thread'] w'].
  exact (proj2 Hrepeat).
Defined.

(** X2.  The value an action returns tells whether it wrote: it returns
    true exactly when the database is not the one it found, and when it
    returns false the thread is the one it was given. *)
Theorem action_returns_true_iff_it_wrote
    (a : Action) (user : User) (thread : Thread) (w : World) :
  let '(changed, thread', w') := run a user thread w in
  (changed = true <-> w' <> w) /\
  (changed = false -> thread' = thread).
Proof.
  destruct a; unfold_action; cbn; split_guard;
    (split; [split|]);
    try reflexivity; try discriminate; try congruence;
    intros _; apply commit_changes.
Qed.

(** X3.  When an action with a test of the thread's state returns true,
    the instance it returns is the instance of its last save of the thread:
    nothing is assigned to the thread after it was last saved. *)
Theorem returned_thread_is_the_last_saved
    (a : Action) (user : User) (thread : Thread) (w : World) :
  guarded a = true ->
  let '(changed, thread', w') := run a user thread w in
  changed = true ->
  last_thread_saved (written w w') = Some thread'.
Proof.
  intros Ha.
  destruct a; try discriminate Ha; unfold_action; cbn; split_guard;
    intros Hc; try discriminate Hc;
    rewrite written_commit; reflexivity.
Qed.

Lemma returned_thread_is_the_last_saved_witness :
  last_thread_saved
    (written world0 (snd (run Unhide alice hidden_thread world0))) =
  Some (snd (fst (run Unhide alice hidden_thread world0))).
Proof.
  pose proof (returned_thread_is_the_last_saved Unhide alice hidden_thread
                world0 eq_refl) as Hlast.
  destruct (run Unhide alice hidden_thread world0) as [[changed thread'] w']
    eqn:Hrun.
  apply Hlast.
  apply (f_equal (fun r => fst (fst r))) in Hrun. exact (eq_sym Hrun).
Defined.

(** X4.  No update is lost by an action that calls neither [synchronize]
    nor [merge] nor [delete]: each save of the thread it issues has an
    [update_fields] list, saves the instance the action returns, and every
    column of the thread that the list leaves out has the value it had
    before the action. *)
Theorem unlisted_thread_columns_are_unchanged
    (a : Action) (user : User) (thread : Thread) (w : World) :
  self_contained a = true ->
  let '(_, thread', w') := run a user thread w in
  forall t uf,
    In (ThreadSaved t uf) (written w w') ->
    exists fields,
      uf = Some fields /\ t = thread' /\
      thread_columns_kept fields thread thread'.
Proof.
  intros Ha.
  destruct a; try discriminate Ha; unfold_action; cbn; split_guard;
    intros t uf Hin;
    rewrite ?written_commit, ?written_same in Hin; cbn in Hin;
    repeat match goal with
    | Hor : _ \/ _ |- _ => destruct Hor as [Hor | Hor]
    | Hf : False |- _ => destruct Hf
    end;
    try discriminate;
    match goal with
    | Heq : ThreadSaved _ _ = ThreadSaved _ _ |- _ =>
        injection Heq as <- <-
    end;
    (eexists; split; [reflexivity|]; split; [reflexivity|]);
    unfold thread_columns_kept; cbn;
    repeat split; intros Hout; try reflexivity;
    exfalso; apply Hout; cbn; tauto.
Qed.

Lemma unlisted_thread_columns_are_unchanged_witness :
  thread_columns_kept ["has_events"; "is_hidden"] plain_thread
    (snd (fst (run Hide alice plain_thread world0))).
Proof.
  pose proof (unlisted_thread_columns_are_unchanged Hide alice plain_thread
                world0 eq_refl) as Hkept.
  destruct (run Hide alice plain_thread world0) as [[changed thread'] w']
    eqn:Hrun.
  vm_compute in Hrun. injection Hrun as <- <- <-.
  destruct (Hkept _ _ (or_intror (or_intror (or_introl eq_refl))))
    as (fields & Huf & _ & Hcolumns).
  injection Huf as <-. exact Hcolumns.
Defined.

(** X5.  Every save of a post an action issues has an [update_fields]
    list, and every column of the first post that the list leaves out has
    in the saved post the value it had before the action.  Only approve,
    unhide and hide save a post. *)
Theorem unlisted_post_columns_are_unchanged
    (a : Action) (user : User) (thread : Thread) (w : World) :
  let '(_, _, w') := run a user thread w in
  (forall p uf,
     In (PostSaved p uf) (written w w') ->
     exists fields,
       uf = Some fields /\ post_columns_kept fields (first_post thread) p) /\
  match a with
  | Approve | Unhide | Hide => True
  | _ => post_saves (written w w') = []
  end.
Proof.
  destruct a; unfold_action; cbn; split_guard;
    rewrite ?written_commit, ?written_same;
    (split; [|try exact I; reflexivity]);
    intros p uf Hin; cbn in Hin;
    repeat match goal with
    | Hor : _ \/ _ |- _ => destruct Hor as [Hor | Hor]
    | Hf : False |- _ => destruct Hf
    end;
    try discriminate;
    match goal with
    | Heq : PostSaved _ _ = PostSaved _ _ |- _ => injection Heq as <- <-
    end;
    (eexists; split; [reflexivity|]);
    unfold post_columns_kept; cbn;
    repeat split; intros Hout; try reflexivity;
    exfalso; apply Hout; cbn; tauto.
Qed.

(** X6.  [close_thread] followed by [open_thread] on a thread that was
    open: both return true, the thread is back as it was except for
    [has_events], and the two invocations wrote two audit events, the
    closing by the first user and then the opening by the second. *)
Theorem close_then_open_restores_thread
    (closer opener : User) (thread : Thread) (w : World) :
  is_closed thread = false ->
  let '(closed, thread1, w1) := close_thread closer thread w in
  let '(opened, thread2, w2) := open_thread opener thread1 w1 in
  closed = true /\ opened = true /\
  thread2 = set_has_events thread true /\
  map event_icon (events_of (written w w2)) = ["lock"; "unlock-alt"] /\
  map event_author (events_of (written w w2)) = [closer; opener].
Proof.
  intros Hopen. destruct thread; cbn in Hopen; subst.
  unfold_action; cbn.
  rewrite written_commit_commit.
  repeat split.
Qed.

Lemma close_then_open_restores_thread_witness :
  snd (fst (open_thread bob
              (snd (fst (close_thread alice plain_thread world0)))
              (snd (close_thread alice plain_thread world0)))) =
  set_has_events plain_thread true.
Proof.
  pose proof (close_then_open_restores_thread alice bob plain_thread world0
                eq_refl) as Hround.
  destruct (close_thread alice plain_thread world0) as [[closed thread1] w1].
  cbn [fst snd].
  destruct (open_thread bob thread1 w1) as [[opened thread2] w2].
  exact (proj1 (proj2 (proj2 Hround))).
Defined.

(** X7.  [remove_thread_weight] undoes [pin_thread] and [announce_thread]
    on a thread without weight: both invocations return true, the thread is
    back as it was except for [has_events], and two audit events were
    written. *)
Theorem remove_thread_weight_undoes_pin_and_announce
    (a : Action) (user remover : User) (thread : Thread) (w : World) :
  weight thread = 0 ->
  a = Pin \/ a = Announce ->
  let '(weighted, thread1, w1) := run a user thread w in
  let '(removed, thread2, w2) := remove_thread_weight remover thread1 w1 in
  weighted = true /\ removed = true /\
  weight thread1 <> 0 /\
  thread2 = set_has_events thread true /\
  length (events_of (written w w2)) = 2%nat.
Proof.
  intros Hweight Ha. destruct thread; cbn in Hweight; subst.
  destruct Ha as [-> | ->]; unfold_action; cbn;
    rewrite written_commit_commit; repeat split; discriminate.
Qed.

Lemma remove_thread_weight_undoes_pin_and_announce_witness :
  snd (fst (remove_thread_weight bob
              (snd (fst (run Announce alice plain_thread world0)))
              (snd (run Announce alice plain_thread world0)))) =
  set_has_events plain_thread true.
Proof.
  pose proof (remove_thread_weight_undoes_pin_and_announce Announce alice bob
                plain_thread world0 eq_refl (or_intror eq_refl)) as Hround.
  destruct (run Announce alice plain_thread world0) as [[weighted thread1] w1].
  cbn [fst snd].
  destruct (remove_thread_weight bob thread1 w1) as [[removed thread2] w2].
  exact (proj1 (proj2 (proj2 (proj2 Hround)))).
Defined.

End ModerationFacts.

(* ===================================================================== *)
(** ** Properties of the admin views *)
(* ===================================================================== *)

Module AdminViewsFacts.
Import AdminViews.

Section ViewFacts.

Context {Q : Type} `{QuerySet Q}.
Variable int_of_string : string -> option Z.

(** An exception of a [Result] passes through [rbind]. *)
Lemma rbind_return {A B : Type} (r : Result A) (k : A -> Result B) (b : B) :
  rbind r k = Return b -> exists a, r = Return a /\ k a = Return b.
Proof.
  destruct r as [a | e]; cbn; intros Hk; [eauto | discriminate Hk].
Qed.

(** *** Sort keys *)

(** A sort key that matches no declared ordering: the loop leaves the
    session alone, flashes the error and raises [ValueError]. *)
Lemma set_ordering_loop_no_match (view : ListView Q)
    (orderings : list (string * string)) (new_order : string)
    (request : Request) :
  (forall order, In order orderings -> snd order <> new_order) ->
  set_ordering_loop view orderings new_order request =
    (Raise ValueError,
     messages_error request "New sorting method is incorrect.").
Proof.
  induction orderings as [|order rest IH]; intros Hno; cbn; [reflexivity|].
  destruct (String.eqb_spec (snd order) new_order) as [Heq | _].
  - exfalso. apply (Hno order); [now left | exact Heq].
  - apply IH. intros o Ho. apply Hno. now right.
Qed.

(** [list_items] reads the request and hands it back as it was. *)
Lemma list_items_request (view : ListView Q) (kwargs : gmap string PyVal)
    (request : Request) :
  snd (list_items int_of_string view kwargs request) = request.
Proof.
  unfold list_items, render.
  repeat match goal with
  | |- context [match ?x with _ => _ end] => destruct x; cbn; try reflexivity
  end.
Qed.

(** [list_items] answers with a rendered page or an exception. *)
Lemma list_items_no_redirect (view : ListView Q) (kwargs : gmap string PyVal)
    (request : Request) (to : string) :
  fst (list_items int_of_string view kwargs request) <> Return (Redirect to).
Proof.
  unfold list_items, render.
  repeat match goal with
  | |- context [match ?x with _ => _ end] => destruct x; cbn; try discriminate
  end.
Qed.

(** *** Ordering *)

(** A declared ordering with a non-empty key has its dictionary. *)
Lemma order_as_dict_defined (order : string * string) :
  snd order <> "" ->
  exists t,
    order_as_dict order =
      Return {| name := fst order; order_by_key := snd order; type := t |}.
Proof.
  intros Hkey. unfold order_as_dict, order_type.
  destruct (snd order) as [|c key]; [congruence|].
  cbn. eauto.
Qed.

(** When the stored sort order matches no declared ordering, the loop of
    [order_items] appends the dictionary of every ordering to
    [context['order_by']] and touches nothing else. *)
Lemma order_items_loop_no_match (orderings : list (string * string))
    (current_ordering : option string) (context : Context Q) :
  Forall (fun order => snd order <> "") orderings ->
  (forall order, In order orderings -> current_ordering <> Some (snd order)) ->
  exists dicts,
    Forall2 (fun order d => order_as_dict order = Return d) orderings dicts /\
    order_items_loop orderings current_ordering context =
      Return (set_ctx_order_by context (ctx_order_by context ++ dicts)).
Proof.
  revert context.
  induction orderings as [|order rest IH]; intros context Hkeys Hno.
  - exists []. split; [constructor|]. cbn. rewrite app_nil_r.
    destruct context; reflexivity.
  - inversion Hkeys as [|? ? Hkey Hrest]; subst.
    destruct (order_as_dict_defined order Hkey) as [t Hd].
    assert (Hcur : is_current (snd order) current_ordering = false).
    { unfold is_current. destruct current_ordering as [c|]; [|reflexivity].
      destruct (String.eqb_spec (snd order) c) as [Heq | _]; [|reflexivity].
      exfalso. apply (Hno order); [now left | now rewrite Heq]. }
    destruct (IH (set_ctx_order_by context
                    (ctx_order_by context ++
                     [{| name := fst order; order_by_key := snd order;
                         type := t |}])) Hrest) as (dicts & Hdicts & Hloop).
    { intros o Ho. apply Hno. now right. }
    exists ({| name := fst order; order_by_key := snd order; type := t |} :: dicts).
    split; [constructor; assumption|].
    cbn [order_items_loop]. rewrite Hd. cbn [rbind]. rewrite Hcur, Hloop.
    cbn. now rewrite <- app_assoc.
Qed.

(** *** Pagination *)

(** The page a paginator returns carries the number [int] found. *)
Lemma paginator_page_number (pg : Paginator Q) (value : PyVal) (p : Page Q) :
  paginator_page int_of_string pg value = Return p ->
  int int_of_string value = Return (number p).
Proof.
  unfold paginator_page. intros Hp.
  apply rbind_return in Hp as (n & Hn & Hp).
  injection Hp as <-. cbn.
  unfold validate_number in Hn.
  destruct (int int_of_string value) as [m | e]; [|discriminate Hn].
  destruct (m <? 1); [discriminate Hn|].
  apply rbind_return in Hn as (pages & _ & Hn).
  destruct (m >? pages); [destruct ((m =? 1) && _)|];
    congruence.
Qed.

(** Page 1 of a paginator that allows an empty first page exists. *)
Lemma paginator_first_page (pg : Paginator Q) :
  per_page pg <> 0 ->
  allow_empty_first_page pg = true ->
  exists p,
    paginator_page int_of_string pg (PyInt 1) = Return p /\ number p = 1.
Proof.
  intros Hper Hallow.
  unfold paginator_page, validate_number, num_pages. cbn.
  rewrite Hallow, andb_false_r.
  destruct (Z.eqb_spec (per_page pg) 0) as [Hz | _]; [contradiction|].
  cbn. destruct (1 >? _); cbn; eauto.
Qed.

End ViewFacts.

(** [AdminView._get_target] is not the lookup [TargetedView.dispatch]
    uses: whatever the arguments, it ends in [NameError]. *)
Remark unbound_target_in_get_target
    {Q Target : Type} (view : TargetedView Q Target)
    (kwargs : list (string * PyVal)) (request : Request) :
  _get_target view kwargs request = (Raise NameError, request).
Proof. reflexivity. Qed.

(** C6 (as stated, refuted).  A POST with the sort key [username], which
    [users_view] does not declare, is answered with the rendered list, not
    with a redirect. *)
Lemma invalid_sort_key_is_not_redirected :
  exists context request',
    dispatch decimal users_view ∅ sort_request =
      (Return (Rendered "misago/admin/users/list.html" context), request') /\
    messages request' =
      [{| level := "error"; text := "New sorting method is incorrect." |}] /\
    forall to,
      fst (dispatch decimal users_view ∅ sort_request) <> Return (Redirect to).
Proof.
  do 2 eexists. split; [vm_compute; reflexivity|].
  split; [reflexivity|].
  intros to. vm_compute. discriminate.
Qed.

(** C6 (amended).  In a list view with orderings configured, a POST whose
    sort key matches none of the declared orderings adds the flash error
    message and leaves the session, hence the stored sort order, as it was.
    No redirect follows: the view goes on to order, paginate and render the
    list as it does for a request that submits no sort key. *)
Theorem invalid_sort_key_flashes_and_lists
    {Q : Type} `{QuerySet Q} (int_of_string : string -> option Z)
    (view : ListView Q) (kwargs : gmap string PyVal) (request : Request)
    (first : string * string) (rest : list (string * string))
    (new_order : string) :
  ordering view = Some (first :: rest) ->
  method request = "POST" ->
  POST request !! "order_by" = Some new_order ->
  (forall order, In order (first :: rest) -> snd order <> new_order) ->
  dispatch int_of_string view kwargs request =
    list_items int_of_string view kwargs
      (messages_error request "New sorting method is incorrect.") /\
  session (snd (dispatch int_of_string view kwargs request)) = session request /\
  messages (snd (dispatch int_of_string view kwargs request)) =
    messages request ++
    [{| level := "error"; text := "New sorting method is incorrect." |}] /\
  forall to,
    fst (dispatch int_of_string view kwargs request) <> Return (Redirect to).
Proof.
  intros Hord Hmethod Hpost Hno.
  assert (Hd : dispatch int_of_string view kwargs request =
               list_items int_of_string view kwargs
                 (messages_error request "New sorting method is incorrect.")).
  { unfold dispatch, set_ordering. rewrite Hord, Hmethod, Hpost.
    cbn -[set_ordering_loop].
    rewrite (set_ordering_loop_no_match view (first :: rest) new_order request Hno).
    reflexivity. }
  split; [exact Hd|]. rewrite Hd, list_items_request.
  repeat split. apply list_items_no_redirect.
Qed.

Lemma invalid_sort_key_flashes_and_lists_witness :
  session (snd (dispatch decimal users_view ∅ sort_request)) =
    session sort_request /\
  messages (snd (dispatch decimal users_view ∅ sort_request)) =
    [{| level := "error"; text := "New sorting method is incorrect." |}].
Proof.
  assert (Hno : forall order : string * string,
             In order [("Newest", "-id"); ("Oldest", "id")] ->
             snd order <> "username").
  { intros order [<- | [<- | []]]; cbn; discriminate. }
  destruct (invalid_sort_key_flashes_and_lists decimal users_view ∅
              sort_request ("Newest", "-id") [("Oldest", "id")] "username"
              eq_refl eq_refl eq_refl Hno) as (_ & Hsession & Hmessages & _).
  split; [exact Hsession | exact Hmessages].
Defined.

(** C7 (as stated, refuted).  [keyless_view] declares two orderings, the
    second with an empty [order_by] key.  With no sort order in the
    session, [order_items] on the context [dispatch] builds raises
    [IndexError]: no ordering becomes the current one. *)
Lemma keyless_ordering_raises_instead_of_falling_back :
  ordering keyless_view = Some [("Newest", "-id"); ("Default", "")] /\
  session list_request !! ordering_session_key keyless_view = None /\
  order_items keyless_view list_request (initial_context keyless_view) =
    Raise IndexError.
Proof. repeat split. Qed.

(** C7 (amended).  In a list view with orderings configured, all with a
    non-empty [order_by] key, when the session holds no sort order, or one
    that matches no declared ordering, [order_items] on the context
    [dispatch] builds makes the first declared ordering the current order,
    orders the items by its [order_by] key, and leaves the other orderings
    in [context['order_by']]. *)
Theorem order_items_falls_back_to_first_ordering
    {Q : Type} `{QuerySet Q}
    (view : ListView Q) (request : Request) (context : Context Q)
    (first : string * string) (rest : list (string * string)) :
  ordering view = Some (first :: rest) ->
  Forall (fun order => snd order <> "") (first :: rest) ->
  (forall order, In order (first :: rest) ->
     session request !! ordering_session_key view <> Some (snd order)) ->
  order context = None ->
  ctx_order_by context = [] ->
  exists context' current,
    order_items view request context = Return context' /\
    order_as_dict first = Return current /\
    name current = fst first /\
    order_by_key current = snd first /\
    order context' = Some current /\
    items context' = order_by (items context) (snd first) /\
    Forall2 (fun order d => order_as_dict order = Return d) rest
      (ctx_order_by context').
Proof.
  intros Hord Hkeys Hno Horder Hby.
  destruct (order_items_loop_no_match (first :: rest)
              (session request !! ordering_session_key view) context Hkeys Hno)
    as (dicts & Hdicts & Hloop).
  inversion Hdicts as [|? current ? others Hfirst Hrest]; subst.
  unfold order_items. rewrite Hord, Hloop. cbn. rewrite Horder, Hby. cbn.
  exists (set_items
            (set_order (set_ctx_order_by (set_ctx_order_by context (current :: others)) others)
               (Some current))
            (order_by (items context) (order_by_key current))), current.
  assert (Hcur : name current = fst first /\ order_by_key current = snd first).
  { unfold order_as_dict in Hfirst.
    destruct (order_type (snd first)); cbn in Hfirst; [|discriminate Hfirst].
    injection Hfirst as <-. split; reflexivity. }
  destruct Hcur as [Hname Hkey].
  repeat split; try assumption.
  cbn. now rewrite Hkey.
Qed.

Lemma order_items_falls_back_to_first_ordering_witness :
  exists context',
    order_items users_view sort_request (initial_context users_view) =
      Return context' /\
    order context' =
      Some {| name := "Newest"; order_by_key := "-id"; type := "desc" |} /\
    items context' = [3; 2; 1].
Proof.
  assert (Hkeys : Forall (fun order : string * string => snd order <> "")
                    [("Newest", "-id"); ("Oldest", "id")]).
  { repeat constructor; cbn; discriminate. }
  assert (Hno : forall order : string * string,
             In order [("Newest", "-id"); ("Oldest", "id")] ->
             session sort_request !! ordering_session_key users_view <>
             Some (snd order)).
  { intros order _. vm_compute. discriminate. }
  destruct (order_items_falls_back_to_first_ordering users_view sort_request
              (initial_context users_view) ("Newest", "-id") [("Oldest", "id")]
              eq_refl Hkeys Hno eq_refl eq_refl)
    as (context' & current & Hrun & Hfirst & _ & _ & Horder & Hitems & _).
  exists context'. split; [exact Hrun|].
  cbn in Hfirst. injection Hfirst as <-.
  split; [exact Horder | exact Hitems].
Defined.

(** C8.  A targeted view dispatched on a request whose target the model
    manager does not find answers with a redirect to the root link, after
    adding the flash error [message_404]; [DoesNotExist] does not reach the
    caller. *)
Theorem missing_target_flashes_and_redirects
    {Q Target : Type} (view : TargetedView Q Target)
    (key : string) (value : PyVal) (rest : list (string * PyVal))
    (request : Request) :
  objects_get view value = None ->
  get_target view ((key, value) :: rest) = Raise DoesNotExist /\
  targeted_dispatch view ((key, value) :: rest) request =
    (Return (Redirect (target_root_link view)),
     messages_error request (message_404 view)).
Proof.
  intros Hmissing.
  unfold targeted_dispatch, get_target_or_none, get_target.
  rewrite Hmissing. split; reflexivity.
Qed.

Lemma missing_target_flashes_and_redirects_witness :
  objects_get ranks_view (PyStr "5") = None /\
  targeted_dispatch ranks_view [("pk", PyStr "5")] sort_request =
    (Return (Redirect "misago:admin:users:ranks:index"),
     messages_error sort_request "Requested rank does not exist.").
Proof.
  split; [reflexivity|].
  apply (missing_target_flashes_and_redirects ranks_view "pk" (PyStr "5") []
           sort_request eq_refl).
Defined.

(** C9.  In [paginate_items] of a paginated list view, a page value that
    [int] reads as 1 raises [ExplicitFirstPage], which leaves the method;
    a page value that [int] reads as 0 yields page number 1; and whenever
    the method returns with page number 1, [int] read the page value
    as 0. *)
Theorem paginate_items_first_page_only_through_zero
    {Q : Type} `{QuerySet Q} (int_of_string : string -> option Z)
    (view : ListView Q) (context : Context Q) (page_arg : PyVal) :
  items_per_page view <> 0 ->
  (int int_of_string page_arg = Return 1 ->
   paginate_items int_of_string view context page_arg =
     Raise ExplicitFirstPage) /\
  (int int_of_string page_arg = Return 0 ->
   exists context' p,
     paginate_items int_of_string view context page_arg = Return context' /\
     page context' = Some p /\ number p = 1) /\
  (forall context' p,
     paginate_items int_of_string view context page_arg = Return context' ->
     page context' = Some p ->
     number p = 1 ->
     int int_of_string page_arg = Return 0).
Proof.
  intros Hper. repeat split.
  - intros Hint. unfold paginate_items. rewrite Hint. reflexivity.
  - intros Hint. unfold paginate_items. rewrite Hint. cbn.
    destruct (paginator_first_page int_of_string
                {| object_list := items context;
                   per_page := items_per_page view;
                   allow_empty_first_page := true |} Hper eq_refl)
      as (p & Hp & Hnumber).
    rewrite Hp. cbn. eauto.
  - intros context' p Hrun Hpage Hnumber.
    unfold paginate_items in Hrun.
    apply rbind_return in Hrun as (value & Hvalue & Hrun).
    apply rbind_return in Hrun as (p' & Hp' & Hrun).
    injection Hrun as <-. cbn in Hpage. injection Hpage as ->.
    apply paginator_page_number in Hp'. rewrite Hnumber in Hp'.
    destruct (int int_of_string page_arg) as [n | e] eqn:Hint.
    + destruct (Z.eqb_spec n 1) as [_ | Hn1]; [discriminate Hvalue|].
      destruct (Z.eqb_spec n 0) as [-> | _]; [reflexivity|].
      injection Hvalue as <-. cbn in Hp'. congruence.
    + destruct e; try discriminate Hvalue.
      injection Hvalue as <-. congruence.
Qed.

Lemma paginate_items_first_page_only_through_zero_witness :
  items_per_page users_view <> 0 /\
  paginate_items decimal users_view (initial_context users_view) (PyStr "1") =
    Raise ExplicitFirstPage /\
  exists context' p,
    paginate_items decimal users_view (initial_context users_view) (PyInt 0) =
      Return context' /\
    page context' = Some p /\ number p = 1.
Proof.
  assert (Hper : items_per_page users_view <> 0) by (cbn; lia).
  split; [exact Hper|]. split.
  - apply (paginate_items_first_page_only_through_zero decimal users_view
             (initial_context users_view) (PyStr "1") Hper).
    reflexivity.
  - apply (paginate_items_first_page_only_through_zero decimal users_view
             (initial_context users_view) (PyInt 0) Hper).
    reflexivity.
Defined.

(** *** Further properties of the list view *)

Section MoreViewFacts.

Context {Q : Type} `{QuerySet Q}.
Variable int_of_string : string -> option Z.

(** A sort key that some declared ordering carries: the loop stores it in
    the session and answers with the redirect. *)
Lemma set_ordering_loop_match (view : ListView Q)
    (orderings : list (string * string)) (key : string) (request : Request) :
  In key (map snd orderings) ->
  set_ordering_loop view orderings key request =
    (Return (Redirect (current_link request)),
     set_session request
       (<[ordering_session_key view := key]> (session request))).
Proof.
  induction orderings as [|order rest IH]; intros Hin; [destruct Hin|].
  cbn [set_ordering_loop].
  destruct (String.eqb_spec (snd order) key) as [-> | Hne].
  - reflexivity.
  - apply IH. destruct Hin as [Heq | Hin]; [contradiction | exact Hin].
Qed.

(** [dispatch] on a POST whose sort key is declared. *)
Lemma dispatch_declared_sort_key (view : ListView Q)
    (kwargs : gmap string PyVal) (request : Request)
    (orderings : list (string * string)) (key : string) :
  ordering view = Some orderings ->
  In key (map snd orderings) ->
  method request = "POST" ->
  POST request !! "order_by" = Some key ->
  dispatch int_of_string view kwargs request =
    (Return (Redirect (current_link request)),
     set_session request
       (<[ordering_session_key view := key]> (session request))).
Proof.
  intros Hord Hin Hmethod Hpost.
  unfold dispatch, set_ordering. rewrite Hord, Hmethod, Hpost.
  destruct orderings as [|first rest]; [destruct Hin|].
  cbn -[set_ordering_loop].
  now rewrite (set_ordering_loop_match view (first :: rest) key request Hin).
Qed.

(** A request that submits no sort key, or a view without orderings:
    [dispatch] is [list_items]. *)
Lemma dispatch_without_submission (view : ListView Q)
    (kwargs : gmap string PyVal) (request : Request) :
  ordering view = None \/ ordering view = Some [] \/
  method request <> "POST" \/ POST request !! "order_by" = None ->
  dispatch int_of_string view kwargs request =
    list_items int_of_string view kwargs request.
Proof.
  intros Hcase. unfold dispatch.
  destruct (ordering view) as [[|first rest]|]; try reflexivity.
  destruct Hcase as [Hc | [Hc | [Hc | Hc]]]; try discriminate Hc.
  - destruct (String.eqb_spec (method request) "POST"); [contradiction|reflexivity].
  - rewrite Hc. now destruct (method request =? "POST")%string.
Qed.

(** The loop of [order_items] when the session holds the key [key] and
    the declared keys are pairwise different: the orderings with another
    key go to [context['order_by']], the one with [key], if any, becomes
    the current order and orders the items. *)
Lemma order_items_loop_stored (orderings : list (string * string))
    (key : string) (context : Context Q) :
  Forall (fun order => snd order <> "") orderings ->
  List.NoDup (map snd orderings) ->
  exists context' others,
    order_items_loop orderings (Some key) context = Return context' /\
    Forall2 (fun order d => order_as_dict order = Return d)
      (List.filter (fun o => negb (snd o =? key)%string) orderings) others /\
    ctx_order_by context' = ctx_order_by context ++ others /\
    (~ In key (map snd orderings) ->
     order context' = order context /\ items context' = items context) /\
    (In key (map snd orderings) ->
     exists current,
       order context' = Some current /\
       order_by_key current = key /\
       In (name current, key) orderings /\
       items context' = order_by (items context) key).
Proof.
  revert context.
  induction orderings as [|o rest IH]; intros context Hkeys Hnodup.
  - exists context, []. cbn. rewrite app_nil_r.
    repeat split; try constructor. intros [].
  - inversion Hkeys as [|? ? Hkey Hrest]; subst.
    inversion Hnodup as [|? ? Hfresh Hnodup']; subst.
    destruct (order_as_dict_defined o Hkey) as [t Hd].
    cbn [order_items_loop List.filter map]. rewrite Hd. cbn [rbind is_current].
    destruct (String.eqb_spec (snd o) key) as [Heq | Hne]; cbn [negb].
    + destruct (IH (set_items
                      (set_order context
                         (Some {| name := fst o; order_by_key := snd o;
                                  type := t |}))
                      (order_by (items context) (snd o))) Hrest Hnodup')
        as (context' & others & Hloop & Hothers & Hby & Hnone & _).
      exists context', others.
      split; [exact Hloop|]. split; [exact Hothers|]. split; [exact Hby|].
      split.
      * intros Hnot. exfalso. apply Hnot. left. exact Heq.
      * intros _. rewrite <- Heq in Hnone.
        destruct (Hnone Hfresh) as [Horder Hitems].
        exists {| name := fst o; order_by_key := snd o; type := t |}.
        split; [exact Horder|]. split; [exact Heq|].
        split; [left; rewrite <- Heq; cbn; now destruct o|].
        rewrite Hitems. cbn. now rewrite Heq.
    + destruct (IH (set_ctx_order_by context
                      (ctx_order_by context ++
                       [{| name := fst o; order_by_key := snd o;
                           type := t |}])) Hrest Hnodup')
        as (context' & others & Hloop & Hothers & Hby & Hnone & Hsome).
      exists context',
        ({| name := fst o; order_by_key := snd o; type := t |} :: others).
      split; [exact Hloop|]. split; [constructor; assumption|].
      split; [rewrite Hby; cbn; now rewrite <- app_assoc|].
      split.
      * intros Hnot. apply Hnone. intros Hin. apply Hnot. now right.
      * intros [Heq | Hin]; [contradiction|].
        destruct (Hsome Hin) as (current & Horder & Hk & Hdecl & Hitems).
        exists current. repeat split; try assumption. now right.
Qed.

(** *** Further properties of the paginator *)

(** A page number the paginator accepts is at least 1, and past the first
    page it lies within the rows. *)
Lemma validate_number_range (pg : Paginator Q) (value : PyVal) (n : Z) :
  0 < per_page pg ->
  validate_number int_of_string pg value = Return n ->
  int int_of_string value = Return n /\
  1 <= n /\
  (n = 1 \/ (n - 1) * per_page pg < count (object_list pg)).
Proof.
  intros Hper Hn. unfold validate_number in Hn.
  destruct (int int_of_string value) as [m | e]; [|discriminate Hn].
  destruct (Z.ltb_spec m 1) as [_ | Hge]; [discriminate Hn|].
  apply rbind_return in Hn as (pages & Hpages & Hn).
  assert (Hm : m = n /\ (m <= pages \/ m = 1)).
  { destruct (Z.gtb_spec m pages) as [_ | Hle].
    - destruct (Z.eqb_spec m 1) as [-> | _]; cbn in Hn.
      + destruct (allow_empty_first_page pg); [|discriminate Hn].
        injection Hn as <-. split; [reflexivity | now right].
      + discriminate Hn.
    - injection Hn as <-. split; [reflexivity | now left]. }
  destruct Hm as [<- Hm].
  split; [reflexivity|]. split; [exact Hge|].
  destruct Hm as [Hle | ->]; [|now left].
  unfold num_pages in Hpages.
  destruct ((count (object_list pg) =? 0) && negb (allow_empty_first_page pg)).
  { injection Hpages as <-. lia. }
  destruct (Z.eqb_spec (per_page pg) 0) as [Hz | _]; [lia|].
  injection Hpages as <-.
  set (hits := Z.max 1 (count (object_list pg))) in *.
  pose proof (Z_div_mod_eq_full (- hits) (per_page pg)) as Hdiv.
  pose proof (Z.mod_pos_bound (- hits) (per_page pg) Hper) as Hmod.
  destruct (Z.eq_dec m 1) as [-> | Hm1]; [now left|]. right.
  assert (Hhits : (m - 1) * per_page pg < hits) by nia.
  assert (1 <= (m - 1) * per_page pg) by nia.
  unfold hits in Hhits. lia.
Qed.

(** Past the rows, the paginator refuses the page. *)
Lemma validate_number_past_the_rows (pg : Paginator Q) (n : Z) :
  0 < per_page pg ->
  2 <= n ->
  count (object_list pg) <= (n - 1) * per_page pg ->
  validate_number int_of_string pg (PyInt n) = Raise EmptyPage.
Proof.
  intros Hper Hn Hpast. unfold validate_number. cbn [int].
  destruct (Z.ltb_spec n 1) as [Hlt | _]; [lia|].
  unfold num_pages.
  destruct ((count (object_list pg) =? 0) && negb (allow_empty_first_page pg)).
  { cbn. destruct (Z.gtb_spec n 0) as [_ | Hle]; [|lia].
    destruct (Z.eqb_spec n 1) as [Hn1 | _]; [lia | reflexivity]. }
  destruct (Z.eqb_spec (per_page pg) 0) as [Hz | _]; [lia|].
  cbn [rbind].
  set (hits := Z.max 1 (count (object_list pg))).
  assert (Hhits : hits <= (n - 1) * per_page pg) by (unfold hits; nia).
  assert (Hq : 1 - n <= - hits / per_page pg).
  { apply Z.div_le_lower_bound; [exact Hper | nia]. }
  destruct (Z.gtb_spec n (- (- hits / per_page pg))) as [_ | Hle]; [|lia].
  destruct (Z.eqb_spec n 1) as [Hn1 | _]; [lia | reflexivity].
Qed.

End MoreViewFacts.

(** X8.  In a list view, a POST whose sort key is the key of a declared
    ordering stores the key in the session under the view's key, adds no
    message, and answers with a redirect to the current link. *)
Theorem valid_sort_key_is_stored_and_redirected
    {Q : Type} `{QuerySet Q} (int_of_string : string -> option Z)
    (view : ListView Q) (kwargs : gmap string PyVal) (request : Request)
    (orderings : list (string * string)) (key : string) :
  ordering view = Some orderings ->
  In key (map snd orderings) ->
  method request = "POST" ->
  POST request !! "order_by" = Some key ->
  dispatch int_of_string view kwargs request =
    (Return (Redirect (current_link request)),
     set_session request
       (<[ordering_session_key view := key]> (session request))) /\
  session (snd (dispatch int_of_string view kwargs request))
    !! ordering_session_key view = Some key /\
  messages (snd (dispatch int_of_string view kwargs request)) =
    messages request.
Proof.
  intros Hord Hin Hmethod Hpost.
  pose proof (dispatch_declared_sort_key int_of_string view kwargs request
                orderings key Hord Hin Hmethod Hpost) as Hd.
  split; [exact Hd|]. rewrite Hd. cbn.
  split; [apply lookup_insert_eq | reflexivity].
Qed.

Lemma valid_sort_key_is_stored_and_redirected_witness :
  dispatch decimal users_view ∅ valid_sort_request =
    (Return (Redirect "misago:admin:users:accounts:index"),
     set_session valid_sort_request
       (<[ordering_session_key users_view := "id"]> ∅)).
Proof.
  assert (Hin : In "id" (map snd [("Newest", "-id"); ("Oldest", "id")]))
    by (cbn; tauto).
  exact (proj1 (valid_sort_key_is_stored_and_redirected decimal users_view ∅
                  valid_sort_request [("Newest", "-id"); ("Oldest", "id")] "id"
                  eq_refl Hin eq_refl eq_refl)).
Defined.

(** X9.  The sort key a POST stored is the one [order_items] then uses.
    With declared keys that are non-empty and pairwise different, after
    [dispatch] accepted the key, [order_items] on the request it left makes
    the ordering declared with that key the current order, orders the items
    by it once, and lists exactly the other orderings in
    [context['order_by']]. *)
Theorem stored_sort_key_becomes_the_current_order
    {Q : Type} `{QuerySet Q} (int_of_string : string -> option Z)
    (view : ListView Q) (kwargs : gmap string PyVal) (request : Request)
    (orderings : list (string * string)) (key : string) :
  ordering view = Some orderings ->
  Forall (fun order => snd order <> "") orderings ->
  List.NoDup (map snd orderings) ->
  In key (map snd orderings) ->
  method request = "POST" ->
  POST request !! "order_by" = Some key ->
  exists context' current,
    order_items view (snd (dispatch int_of_string view kwargs request))
      (initial_context view) = Return context' /\
    order context' = Some current /\
    order_by_key current = key /\
    In (name current, key) orderings /\
    items context' = order_by (get_queryset view) key /\
    Forall2 (fun order d => order_as_dict order = Return d)
      (List.filter (fun o => negb (snd o =? key)%string) orderings)
      (ctx_order_by context').
Proof.
  intros Hord Hkeys Hnodup Hin Hmethod Hpost.
  assert (Hsession :
            session (snd (dispatch int_of_string view kwargs request))
              !! ordering_session_key view = Some key).
  { rewrite (dispatch_declared_sort_key int_of_string view kwargs request
               orderings key Hord Hin Hmethod Hpost).
    cbn. apply lookup_insert_eq. }
  destruct (order_items_loop_stored orderings key (initial_context view)
              Hkeys Hnodup)
    as (context' & others & Hloop & Hothers & Hby & _ & Hsome).
  destruct (Hsome Hin) as (current & Horder & Hk & Hdecl & Hitems).
  exists context', current.
  unfold order_items. rewrite Hsession, Hord, Hloop. cbn [rbind].
  rewrite Horder. cbn in Hby. rewrite Hby.
  repeat split; assumption.
Qed.

Lemma stored_sort_key_becomes_the_current_order_witness :
  exists context',
    order_items users_view (snd (dispatch decimal users_view ∅ valid_sort_request))
      (initial_context users_view) = Return context' /\
    order context' =
      Some {| name := "Oldest"; order_by_key := "id"; type := "asc" |} /\
    items context' = [1; 2; 3] /\
    ctx_order_by context' =
      [{| name := "Newest"; order_by_key := "-id"; type := "desc" |}].
Proof.
  assert (Hkeys : Forall (fun order : string * string => snd order <> "")
                    [("Newest", "-id"); ("Oldest", "id")]).
  { repeat constructor; cbn; discriminate. }
  assert (Hnodup : List.NoDup (map snd [("Newest", "-id"); ("Oldest", "id")])).
  { cbn. repeat constructor; cbn; intuition discriminate. }
  assert (Hin : In "id" (map snd [("Newest", "-id"); ("Oldest", "id")]))
    by (cbn; tauto).
  destruct (stored_sort_key_becomes_the_current_order decimal users_view ∅
              valid_sort_request [("Newest", "-id"); ("Oldest", "id")] "id"
              eq_refl Hkeys Hnodup Hin eq_refl eq_refl)
    as (context' & current & Hrun & Horder & Hkey & Hdecl & Hitems & Hothers).
  exists context'. split; [exact Hrun|].
  vm_compute in Hrun. injection Hrun as <-.
  repeat split.
Defined.

(** X10.  A request that submits no sort key (it is no POST, or its form
    data has no [order_by]), and any request to a view without orderings,
    leaves the request as it was, session and messages included, and is
    never answered with a redirect: the answer is the rendered list or an
    exception. *)
Theorem request_without_sort_key_changes_nothing
    {Q : Type} `{QuerySet Q} (int_of_string : string -> option Z)
    (view : ListView Q) (kwargs : gmap string PyVal) (request : Request) :
  ordering view = None \/ ordering view = Some [] \/
  method request <> "POST" \/ POST request !! "order_by" = None ->
  snd (dispatch int_of_string view kwargs request) = request /\
  forall to,
    fst (dispatch int_of_string view kwargs request) <> Return (Redirect to).
Proof.
  intros Hcase.
  rewrite (dispatch_without_submission int_of_string view kwargs request Hcase).
  split; [apply list_items_request | apply list_items_no_redirect].
Qed.

Lemma request_without_sort_key_changes_nothing_witness :
  snd (dispatch decimal users_view ∅ list_request) = list_request.
Proof.
  assert (Hget : method list_request <> "POST") by (cbn; discriminate).
  exact (proj1 (request_without_sort_key_changes_nothing decimal users_view ∅
                  list_request (or_intror (or_intror (or_introl Hget))))).
Defined.

(** X11.  When [paginate_items] returns, with a positive [items_per_page],
    the context holds the paginator over the items it was given and a page
    whose number is at least 1; the items are now the slice of that page,
    from [(number - 1) * items_per_page] up to [number * items_per_page] or
    the row count, whichever is less; a page past the first starts within
    the rows.  Ordering data in the context is untouched. *)
Theorem paginate_items_returns_a_page_within_the_rows
    {Q : Type} `{QuerySet Q} (int_of_string : string -> option Z)
    (view : ListView Q) (context context' : Context Q) (page_arg : PyVal) :
  0 < items_per_page view ->
  paginate_items int_of_string view context page_arg = Return context' ->
  exists p,
    page context' = Some p /\
    paginator context' =
      Some {| object_list := items context;
              per_page := items_per_page view;
              allow_empty_first_page := true |} /\
    items context' =
      slice (items context) ((number p - 1) * items_per_page view)
        (Z.min (number p * items_per_page view) (count (items context))) /\
    1 <= number p /\
    (number p = 1 \/
     (number p - 1) * items_per_page view < count (items context)) /\
    order context' = order context /\
    ctx_order_by context' = ctx_order_by context.
Proof.
  intros Hper Hrun. unfold paginate_items in Hrun.
  apply rbind_return in Hrun as (value & _ & Hrun).
  apply rbind_return in Hrun as (p & Hp & Hrun).
  injection Hrun as <-. exists p. cbn.
  unfold paginator_page in Hp.
  apply rbind_return in Hp as (n & Hn & Hp).
  apply validate_number_range in Hn as (_ & Hge & Hrange); [|exact Hper].
  injection Hp as <-. cbn in *.
  repeat split; try assumption.
  f_equal.
  destruct (Z.geb_spec ((n - 1) * items_per_page view + items_per_page view)
              (count (items context))); lia.
Qed.

Lemma paginate_items_returns_a_page_within_the_rows_witness :
  exists context' p,
    paginate_items decimal users_view (initial_context users_view) (PyStr "2") =
      Return context' /\
    page context' = Some p /\
    1 <= number p /\
    (number p = 1 \/ (number p - 1) * 2 < 3).
Proof.
  assert (Hper : 0 < items_per_page users_view) by (cbn; lia).
  destruct (paginate_items decimal users_view (initial_context users_view)
              (PyStr "2")) as [context' | e] eqn:Hrun;
    [|vm_compute in Hrun; discriminate Hrun].
  destruct (paginate_items_returns_a_page_within_the_rows decimal users_view
              (initial_context users_view) context' (PyStr "2") Hper Hrun)
    as (p & Hpage & _ & _ & Hge & Hrange & _).
  exists context', p. repeat split; assumption.
Defined.

(** X12.  With a positive [items_per_page], a page value that [int] reads
    as a negative number, or as a number from 2 on whose page would start
    at or past the last row, makes [paginate_items] raise [EmptyPage]. *)
Theorem paginate_items_out_of_range_raises_empty_page
    {Q : Type} `{QuerySet Q} (int_of_string : string -> option Z)
    (view : ListView Q) (context : Context Q) (page_arg : PyVal) (n : Z) :
  0 < items_per_page view ->
  int int_of_string page_arg = Return n ->
  n < 0 \/ (2 <= n /\ count (items context) <= (n - 1) * items_per_page view) ->
  paginate_items int_of_string view context page_arg = Raise EmptyPage.
Proof.
  intros Hper Hint Hout. unfold paginate_items. rewrite Hint.
  destruct (Z.eqb_spec n 1) as [Hn1 | _]; [lia|].
  destruct (Z.eqb_spec n 0) as [Hn0 | _]; [lia|].
  cbn [rbind]. unfold paginator_page.
  destruct Hout as [Hneg | [Hn Hpast]].
  - unfold validate_number. cbn [int].
    destruct (Z.ltb_spec n 1) as [_ | Hge]; [reflexivity | lia].
  - rewrite (validate_number_past_the_rows int_of_string
               {| object_list := items context;
                  per_page := items_per_page view;
                  allow_empty_first_page := true |} n Hper Hn Hpast).
    reflexivity.
Qed.

Lemma paginate_items_out_of_range_raises_empty_page_witness :
  paginate_items decimal users_view (initial_context users_view) (PyStr "3") =
    Raise EmptyPage.
Proof.
  assert (Hper : 0 < items_per_page users_view) by (cbn; lia).
  apply (paginate_items_out_of_range_raises_empty_page decimal users_view
           (initial_context users_view) (PyStr "3") 3 Hper eq_refl).
  right. cbn. lia.
Defined.

(** X13.  A page value that [int] refuses does not fall back to the first
    page: the handler leaves [page] as it was, the paginator refuses it in
    turn, and [paginate_items] raises [PageNotAnInteger]. *)
Theorem paginate_items_refuses_what_int_refuses
    {Q : Type} `{QuerySet Q} (int_of_string : string -> option Z)
    (view : ListView Q) (context : Context Q) (page_arg : PyVal) :
  int int_of_string page_arg = Raise ValueError ->
  paginate_items int_of_string view context page_arg = Raise PageNotAnInteger.
Proof.
  intros Hint. unfold paginate_items. rewrite Hint. cbn [rbind].
  unfold paginator_page, validate_number. rewrite Hint. reflexivity.
Qed.

Lemma paginate_items_refuses_what_int_refuses_witness :
  paginate_items decimal users_view (initial_context users_view)
    (PyStr "last") = Raise PageNotAnInteger.
Proof.
  apply (paginate_items_refuses_what_int_refuses decimal users_view
           (initial_context users_view) (PyStr "last")).
  reflexivity.
Defined.

(** *** What a rendered list holds *)

Section RenderedFacts.

Context {Q : Type} `{QuerySet Q}.
Variable int_of_string : string -> option Z.

(** [set_ordering] ends in a redirect or in [ValueError] with the flash
    message added. *)
Lemma set_ordering_loop_outcome (view : ListView Q)
    (orderings : list (string * string)) (new_order : string)
    (request : Request) :
  (exists to request',
     set_ordering_loop view orderings new_order request =
       (Return (Redirect to), request')) \/
  set_ordering_loop view orderings new_order request =
    (Raise ValueError,
     messages_error request "New sorting method is incorrect.").
Proof.
  induction orderings as [|o rest IH]; cbn [set_ordering_loop].
  - now right.
  - destruct (snd o =? new_order)%string; [left; eauto | exact IH].
Qed.

(** [paginate_items] assigns the paginator, the page and the items, and
    nothing else. *)
Lemma paginate_items_frame (view : ListView Q) (context context' : Context Q)
    (page_arg : PyVal) :
  paginate_items int_of_string view context page_arg = Return context' ->
  (exists p, page context' = Some p /\ items context' = page_object_list p) /\
  order context' = order context /\
  ctx_order_by context' = ctx_order_by context.
Proof.
  unfold paginate_items. intros Hrun.
  apply rbind_return in Hrun as (value & _ & Hrun).
  apply rbind_return in Hrun as (p & _ & Hrun).
  injection Hrun as <-. cbn. eauto.
Qed.

(** When [order_items] returns there is a current order. *)
Lemma order_items_sets_order (view : ListView Q) (request : Request)
    (context context' : Context Q) :
  order_items view request context = Return context' ->
  order context' <> None.
Proof.
  unfold order_items. destruct (ordering view) as [orderings|]; [|discriminate].
  intros Hrun. apply rbind_return in Hrun as (looped & _ & Hrun).
  destruct (order looped) as [d|] eqn:Horder.
  - injection Hrun as <-. now rewrite Horder.
  - destruct (ctx_order_by looped); [discriminate Hrun|].
    injection Hrun as <-. discriminate.
Qed.

(** What [list_items] renders. *)
Lemma list_items_rendered (view : ListView Q) (kwargs : gmap string PyVal)
    (request request' : Request) (t : string) (c : Context Q) :
  list_items int_of_string view kwargs request =
    (Return (Rendered t c), request') ->
  t = final_template view /\
  ctx_root_link c = Some (root_link view) /\
  ctx_current_link c = Some (current_link request) /\
  (items_per_page view = 0 -> paginator c = None /\ page c = None) /\
  (items_per_page view <> 0 ->
   exists p, page c = Some p /\ items c = page_object_list p) /\
  match ordering view with
  | Some (_ :: _) => order c <> None
  | _ => order c = None /\ ctx_order_by c = []
  end.
Proof.
  unfold list_items, render. intros Hrun.
  assert (Hordered : exists ordered,
             match ordering view with
             | Some (_ :: _) =>
                 order_items view request (initial_context view)
             | _ => Return (initial_context view)
             end = Return ordered /\
             paginator ordered = None /\ page ordered = None /\
             match ordering view with
             | Some (_ :: _) => order ordered <> None
             | _ => order ordered = None /\ ctx_order_by ordered = []
             end).
  { destruct (ordering view) as [[|first rest]|] eqn:Hord;
      try (exists (initial_context view); repeat split; reflexivity).
    destruct (order_items view request (initial_context view))
      as [ordered | e] eqn:Hitems; [|discriminate Hrun].
    exists ordered. split; [reflexivity|].
    pose proof (order_items_sets_order _ _ _ _ Hitems) as Hset.
    unfold order_items in Hitems. rewrite Hord in Hitems.
    apply rbind_return in Hitems as (looped & Hloop & Hitems).
    assert (Hkeep : paginator looped = None /\ page looped = None).
    { clear Hitems Hset Hrun.
      assert (Hgen : forall l ctx ctx',
                 order_items_loop l
                   (session request !! ordering_session_key view) ctx =
                   Return ctx' ->
                 paginator ctx' = paginator ctx /\ page ctx' = page ctx).
      { induction l as [|o l IH]; intros ctx ctx' Hl; cbn in Hl.
        - injection Hl as <-. split; reflexivity.
        - apply rbind_return in Hl as (d & _ & Hl).
          apply IH in Hl as [Hp Hpg]. rewrite Hp, Hpg.
          destruct (is_current _ _); split; reflexivity. }
      apply Hgen in Hloop. exact Hloop. }
    destruct Hkeep as [Hp Hpg].
    destruct (order looped).
    - injection Hitems as <-. repeat split; assumption.
    - destruct (ctx_order_by looped); [discriminate Hitems|].
      injection Hitems as <-. cbn. repeat split; assumption. }
  destruct Hordered as (ordered & Hordered & Hp & Hpg & Horder).
  rewrite Hordered in Hrun.
  destruct (Z.eqb_spec (items_per_page view) 0) as [Hzero | Hpos].
  - injection Hrun as <- <- <-. cbn.
    repeat split; try assumption; try contradiction.
    all: try (destruct (ordering view) as [[|? ?]|]; exact Horder).
  - destruct (paginate_items int_of_string view ordered
                (default (PyInt 0) (kwargs !! "page")))
      as [paged | e] eqn:Hpaged; [|discriminate Hrun].
    injection Hrun as <- <- <-. cbn.
    apply paginate_items_frame in Hpaged as (Hpage & Ho & Hby).
    repeat split; try assumption; try contradiction.
    all: try (intros _; exact Hpage).
    all: try (destruct (ordering view) as [[|? ?]|];
              rewrite ?Ho, ?Hby; exact Horder).
Qed.

End RenderedFacts.

(** X17.  Whenever [ListView.dispatch] answers with a rendered page, the
    template is [template_dir/template] and the context carries the root
    link and the current link; it holds a page, whose rows are the items,
    exactly when [items_per_page] is not 0, and a current order exactly
    when the view declares orderings. *)
Theorem rendered_list_holds_links_page_and_order
    {Q : Type} `{QuerySet Q} (int_of_string : string -> option Z)
    (view : ListView Q) (kwargs : gmap string PyVal)
    (request request' : Request) (t : string) (c : Context Q) :
  dispatch int_of_string view kwargs request =
    (Return (Rendered t c), request') ->
  t = final_template view /\
  ctx_root_link c = Some (root_link view) /\
  ctx_current_link c = Some (current_link request) /\
  (items_per_page view = 0 -> paginator c = None /\ page c = None) /\
  (items_per_page view <> 0 ->
   exists p, page c = Some p /\ items c = page_object_list p) /\
  match ordering view with
  | Some (_ :: _) => order c <> None
  | _ => order c = None /\ ctx_order_by c = []
  end.
Proof.
  intros Hrun.
  assert (Hlist : exists request0,
             list_items int_of_string view kwargs request0 =
               (Return (Rendered t c), request') /\
             current_link request0 = current_link request).
  { unfold dispatch in Hrun.
    destruct (ordering view) as [[|first rest]|] eqn:Hord;
      try (exists request; split; [exact Hrun | reflexivity]).
    destruct (method request =? "POST")%string;
      [|exists request; split; [exact Hrun | reflexivity]].
    destruct (POST request !! "order_by") as [new_order|];
      [|exists request; split; [exact Hrun | reflexivity]].
    unfold set_ordering in Hrun. rewrite Hord in Hrun.
    destruct (set_ordering_loop_outcome view (first :: rest) new_order request)
      as [(to & request1 & Hout) | Hout]; rewrite Hout in Hrun.
    - discriminate Hrun.
    - eexists. split; [exact Hrun | reflexivity]. }
  destruct Hlist as (request0 & Hlist & Hlink).
  rewrite <- Hlink.
  exact (list_items_rendered int_of_string view kwargs request0 request' t c
           Hlist).
Qed.

Lemma rendered_list_holds_links_page_and_order_witness :
  exists t c request',
    dispatch decimal users_view ∅ list_request =
      (Return (Rendered t c), request') /\
    t = "misago/admin/users/list.html" /\
    ctx_root_link c = Some "misago:admin:users:accounts:index".
Proof.
  destruct (dispatch decimal users_view ∅ list_request)
    as [[[to | t c] | e] request'] eqn:Hrun;
    try (vm_compute in Hrun; discriminate Hrun).
  destruct (rendered_list_holds_links_page_and_order decimal users_view ∅
              list_request request' t c Hrun) as (Ht & Hroot & _).
  exists t, c, request'. repeat split; assumption.
Defined.

(** X18.  A declared ordering whose [order_by] key is the empty string
    makes [order_items] raise [IndexError], whatever the session holds. *)
Theorem empty_order_by_key_raises_index_error
    {Q : Type} `{QuerySet Q}
    (view : ListView Q) (request : Request) (context : Context Q)
    (orderings : list (string * string)) :
  ordering view = Some orderings ->
  Exists (fun o => snd o = "") orderings ->
  order_items view request context = Raise IndexError.
Proof.
  intros Hord Hempty. unfold order_items. rewrite Hord. clear Hord.
  assert (Hloop : order_items_loop orderings
                    (session request !! ordering_session_key view) context =
                  Raise IndexError).
  { generalize context.
    induction Hempty as [o rest Hkey | o rest Hrest IH]; intros ctx;
      cbn [order_items_loop]; unfold order_as_dict, order_type.
    - rewrite Hkey. reflexivity.
    - destruct (snd o) as [|ch key]; [reflexivity|]. cbn [rbind]. apply IH. }
  now rewrite Hloop.
Qed.

Lemma empty_order_by_key_raises_index_error_witness :
  order_items keyless_view list_request (initial_context keyless_view) =
    Raise IndexError.
Proof.
  apply (empty_order_by_key_raises_index_error keyless_view list_request
           (initial_context keyless_view)
           [("Newest", "-id"); ("Default", "")] eq_refl).
  right. left. reflexivity.
Defined.

(** *** Further properties of the targeted views *)

(** X15.  A button view never runs its action on a request that is no
    POST: whatever the target, the permissions and the action, the answer
    is the redirect to the root link, and it is the answer the view gives
    with any other action in its place. *)
Theorem button_view_acts_on_post_only
    {Q Target : Type} (message root : string)
    (get : PyVal -> option Target) (fresh : Target)
    (permissions : Request -> Target -> option string)
    (action action' : Target -> M (option (Response Q)))
    (kwargs : list (string * PyVal)) (request : Request) :
  method request <> "POST" ->
  fst (targeted_dispatch
         (ButtonView message root get fresh permissions action) kwargs request) =
    Return (Redirect root) /\
  targeted_dispatch
    (ButtonView message root get fresh permissions action) kwargs request =
  targeted_dispatch
    (ButtonView message root get fresh permissions action') kwargs request.
Proof.
  intros Hmethod.
  unfold targeted_dispatch, get_target_or_none, get_target, ButtonView,
    button_real_dispatch; cbn.
  destruct (String.eqb_spec (method request) "POST") as [Hpost | _];
    [contradiction|].
  destruct kwargs as [|[key value] rest].
  - destruct (permissions request fresh) as [[|c error]|]; split; reflexivity.
  - destruct (get value) as [target|]; [|split; reflexivity].
    destruct (permissions request target) as [[|c error]|]; split; reflexivity.
Qed.

Lemma button_view_acts_on_post_only_witness :
  fst (targeted_dispatch delete_rank_view [("pk", PyStr "1")] list_request) =
    Return (Redirect "misago:admin:users:ranks:index").
Proof.
  assert (Hget : method list_request <> "POST") by (cbn; discriminate).
  exact (proj1 (button_view_acts_on_post_only (Q := list Z)
                  "Requested rank does not exist."
                  "misago:admin:users:ranks:index"
                  (objects_get ranks_view) 0 (fun _ _ => None)
                  (fun _ request => (Return None, request))
                  (fun _ request => (Return None, request))
                  [("pk", PyStr "1")] list_request Hget)).
Defined.

End AdminViewsFacts.

(* ===================================================================== *)
(** ** Properties of the thread type URLs *)
(* ===================================================================== *)

Module ThreadTypesFacts.
Import ThreadTypes.

(** X16.  The links of a category to its last thread agree with the links
    of that thread: for the thread whose slug and key the category records,
    [get_category_last_thread_url] is the thread's URL for every page up to
    1 (a page the URL leaves out), and [get_category_last_post_url] is the
    thread's last post URL. *)
Theorem category_links_agree_with_thread_links
    (reverse : string -> gmap string AdminViews.PyVal -> string)
    (category : Category) (thread : Thread) (page : Z) :
  last_thread_slug category = thread_slug thread ->
  last_thread_id category = thread_pk thread ->
  page <= 1 ->
  get_category_last_thread_url reverse category =
    get_thread_absolute_url reverse thread page /\
  get_category_last_post_url reverse category =
    get_thread_last_post_url reverse thread.
Proof.
  intros Hslug Hpk Hpage.
  unfold get_category_last_thread_url, get_category_last_post_url,
    get_thread_absolute_url, get_thread_last_post_url.
  rewrite Hslug, Hpk.
  destruct (Z.gtb_spec page 1) as [Hgt | _]; [lia|].
  split; reflexivity.
Qed.

Lemma category_links_agree_with_thread_links_witness :
  get_category_last_thread_url sample_reverse news =
    get_thread_absolute_url sample_reverse welcome 1 /\
  get_category_last_post_url sample_reverse news =
    get_thread_last_post_url sample_reverse welcome.
Proof.
  apply (category_links_agree_with_thread_links sample_reverse news welcome 1);
    [reflexivity | reflexivity | lia].
Defined.

End ThreadTypesFacts.
